(** * e-commercer-api: request gating middleware, token codec and image upload

    A shallow embedding of
      - [middleware/middleware.go]: the two gating middlewares
        [CheckLoggedIn] and [ConfirmPassword];
      - [domain] session declarations: the sentinel errors and [Session];
      - [client/cloudFlare.go]: [UploadImage];
    followed by the properties the specification states about them.

    Go functions that return [(value, error)] become functions into
    [goret]; code that talks to collaborators (key loading, the JWT library,
    the session service, the response writer, the next handler) runs in the
    monad [Echo], which threads the echo context and keeps a chronological
    log of every collaborator call.

    The token codec ([Issue] and [Verify] of the specification) is not
    among these sources and is modelled from the specification in
    [TokenCodec].

    The model comes first, the proofs second. *)

From Stdlib Require Import ZArith String List Bool Lia.
From stdpp Require Import base option list strings gmap.

Local Open Scope string_scope.
Local Open Scope Z_scope.
Local Open Scope list_scope.

(* ===================================================================== *)
(** ** Go errors *)
(* ===================================================================== *)

(** The sentinel errors of package [domain] ([errors.New] values, compared by
    identity), an error wrapped with [%w], the jwt library's
    [*ValidationError] (its [Inner] error set, or nil with only a text), and
    any other error value (a store or network failure, a context deadline,
    ...). *)
Inductive error : Type :=
| ErrTokenInvalid
| ErrSessionNotFound
| ErrorUnexpectedMethod
| ErrTokenNotFoundInContext
| ErrOTPNotFound
| ErrOTPInvalid
| ErrEmailNotConfirmed
| ErrOther (msg : string)
| ErrWrap (msg : string) (inner : error)
| ValidationError (Inner : error) (Errors : Z)
| ValidationErrorText (text : string) (Errors : Z).

#[global] Instance error_eq_dec : EqDecision error.
Proof.
  intros x. induction x as [| | | | | | |m|m i IH|i IH e|t e];
    intros y; destruct y;
    try (right; discriminate); try (left; reflexivity).
  - destruct (decide (m = msg)) as [->|N]; [left; reflexivity|right; congruence].
  - destruct (decide (m = msg)) as [->|N]; [|right; congruence].
    destruct (IH y) as [->|N]; [left; reflexivity|right; congruence].
  - destruct (decide (e = Errors)) as [->|N]; [|right; congruence].
    destruct (IH y) as [->|N]; [left; reflexivity|right; congruence].
  - destruct (decide (t = text)) as [->|N]; [|right; congruence].
    destruct (decide (e = Errors)) as [->|N]; [left; reflexivity|right; congruence].
Defined.

(** [errors.Is(err, target)]: [err] itself or some error on its [%w] chain
    is [target]. *)
Fixpoint errors_Is (err target : error) : bool :=
  if decide (err = target) then true
  else match err with
       | ErrWrap _ inner => errors_Is inner target
       | _ => false
       end.

(** A Go result [(value, error)] with exactly one side set. *)
Inductive goret (A : Type) : Type :=
| Val (a : A)
| Fail (err : error).
Arguments Val {A} a.
Arguments Fail {A} err.

(* ===================================================================== *)
(** ** HTTP, problem details, sessions and the request *)
(* ===================================================================== *)

Definition StatusOK : Z := 200.
Definition StatusUnauthorized : Z := 401.
Definition StatusForbidden : Z := 403.
Definition StatusInternalServerError : Z := 500.

(** A status of the 5xx class (server fault). *)
Definition is_5xx (code : Z) : bool := (500 <=? code) && (code <? 600).

(** [problem.ProblemDetail], the fields the middleware fills. *)
Record ProblemDetail : Type := {
  Status : Z;
  Title : string;
  Detail : string
}.

(** [uuid.UUID]: sixteen bytes, as a 128-bit number. *)
Definition UUID : Type := Z.

(** [domain.Session]. *)
Record Session : Type := {
  Token : string;
  Name : string;
  UserID : UUID;
  Email : string;
  AvatarURL : string
}.

(** Keys of [context.WithValue] compare by dynamic type and value. *)
Record CtxKey : Type := { key_type : string; key_name : string }.

#[global] Instance CtxKey_eq_dec : EqDecision CtxKey.
Proof. solve_decision. Defined.

(** [const UserKey contextKey = "user"]. *)
Definition UserKey : CtxKey :=
  {| key_type := "middleware.contextKey"; key_name := "user" |}.

(** What a request context may carry: the resolved session, or a value of
    some other package. *)
Inductive CtxVal : Type :=
| VSession (s : Session)
| VAny (v : string).

(** A [context.Context] as its chain of [WithValue] frames, innermost
    first; [Background] is the empty chain. *)
Definition Context : Type := list (CtxKey * CtxVal).

Definition WithValue (parent : Context) (k : CtxKey) (v : CtxVal) : Context :=
  (k, v) :: parent.

Fixpoint Value (c : Context) (k : CtxKey) : option CtxVal :=
  match c with
  | [] => None
  | (k', v) :: parent => if decide (k' = k) then Some v else Value parent k
  end.

(** [*http.Request]: the header map and the request context. *)
Record Request : Type := {
  Header : gmap string (list string);
  Ctx : Context
}.

(** [http.Header.Get]: the first value stored under the key, or the empty
    string. *)
Definition Header_Get (h : gmap string (list string)) (key : string) : string :=
  match h !! key with
  | Some (v :: _) => v
  | _ => ""
  end.

(** [Request.WithContext]: the same request under another context. *)
Definition WithContext (r : Request) (c : Context) : Request :=
  {| Header := Header r; Ctx := c |}.

(* ===================================================================== *)
(** ** JWT tokens *)
(* ===================================================================== *)

(** The dynamic type behind [jwt.SigningMethod]. *)
Inductive SigningMethod : Type :=
| SigningMethodHMAC (alg : string)
| SigningMethodRSA (alg : string)
| SigningMethodRSAPSS (alg : string)
| SigningMethodECDSA (alg : string)
| SigningMethodEd25519
| signingMethodNone.

(** The type assertion of [token.Method] to a pointer to
    [jwt.SigningMethodECDSA]. *)
Definition is_ECDSA (m : SigningMethod) : bool :=
  match m with
  | SigningMethodECDSA _ => true
  | _ => false
  end.

(** [ecdsa.PublicKey]. *)
Record PublicKey : Type := { Curve : string; X : Z; Y : Z }.

(** [jwt.Token]. *)
Record JwtToken : Type := {
  Raw : string;
  Method : SigningMethod;
  Claims : list (string * string);
  Signature : string;
  Valid : bool
}.

Definition set_Valid (t : JwtToken) (b : bool) : JwtToken :=
  {| Raw := Raw t; Method := Method t; Claims := Claims t;
     Signature := Signature t; Valid := b |}.

(** Bits of [ValidationError.Errors]. *)
Definition ValidationErrorUnverifiable : Z := Z.shiftl 1 1.
Definition ValidationErrorSignatureInvalid : Z := Z.shiftl 1 2.
Definition ValidationErrorClaimsInvalid : Z := Z.shiftl 1 9.

(** The [Errors] bitfield of a validation error. *)
Definition vErr_Errors (e : error) : Z :=
  match e with
  | ValidationError _ bits => bits
  | ValidationErrorText _ bits => bits
  | _ => 0
  end.

(* ===================================================================== *)
(** ** The handler monad *)
(* ===================================================================== *)

(** One entry per call that leaves the middleware. *)
Inductive Event : Type :=
| EvExtractToken
| EvLoadPublicKey (path : string)
| EvParseUnverified (tokenString : string)
| EvKeyfunc (m : SigningMethod)
| EvClaimsValid
| EvMethodVerify
| EvGetUser (tokenString : string)
| EvCheckEmailConfirmation (email : string)
| EvJSON (code : Z) (body : ProblemDetail)
| EvSetRequest (r : Request)
| EvNext (r : Request).

(** The echo context of one request (the request it currently holds) and
    the log of calls made so far, oldest first. *)
Record St : Type := { st_request : Request; st_log : list Event }.

(** A Go call either returns or panics. *)
Inductive outcome (A : Type) : Type :=
| Ret (a : A)
| Panic (msg : string).
Arguments Ret {A} a.
Arguments Panic {A} msg.

Definition Echo (A : Type) : Type := St -> outcome A * St.

#[global] Instance Echo_ret : MRet Echo := fun A a s => (Ret a, s).

#[global] Instance Echo_bind : MBind Echo := fun A B f m s =>
  match m s with
  | (Ret a, s') => f a s'
  | (Panic msg, s') => (Panic msg, s')
  end.

Definition panic {A : Type} (msg : string) : Echo A := fun s => (Panic msg, s).

Definition emit (e : Event) : Echo unit := fun s =>
  (Ret tt, {| st_request := st_request s; st_log := st_log s ++ [e] |}).

(** [ctx.Request()]. *)
Definition ctx_Request : Echo Request := fun s => (Ret (st_request s), s).

(** [ctx.SetRequest(r)]. *)
Definition ctx_SetRequest (r : Request) : Echo unit := fun s =>
  (Ret tt, {| st_request := r; st_log := st_log s ++ [EvSetRequest r] |}).

(** An [echo.HandlerFunc] further down the chain: it receives the request
    the context holds at the call, and returns an error or nil. *)
Definition HandlerFunc : Type := Request -> option error.

(** [next(ctx)]. *)
Definition call (next : HandlerFunc) : Echo (option error) :=
  r ← ctx_Request;
  _ ← emit (EvNext r);
  mret (next r).

(* ===================================================================== *)
(** ** Collaborators *)
(* ===================================================================== *)

(** What lies outside the middleware: configuration, package [util], the
    primitives of the jwt library and the response writer. *)
Record World : Type := {
  (** [config.Env.SecretKeyPath] *)
  SecretKeyPath : string;
  (** [util.ExtractToken] *)
  ExtractToken : Request -> goret string;
  (** [util.LoadPublicKey] *)
  LoadPublicKey : string -> goret PublicKey;
  (** [Parser.ParseUnverified]: split in segments, decode header and
      claims, look the method up by the header's [alg] *)
  ParseUnverified : string -> goret JwtToken;
  (** [token.Claims.Valid()] *)
  ClaimsValid : JwtToken -> option error;
  (** [token.Method.Verify(signingString, signature, key)] *)
  MethodVerify : JwtToken -> PublicKey -> option error;
  (** the error, if any, of writing a JSON response *)
  WriteJSON : Z -> ProblemDetail -> option error
}.

(** [domain.UserSessionService], the method the middleware calls. *)
Record UserSessionService : Type := {
  GetUser : Context -> string -> goret Session
}.

(** [domain.UserService], the method the middleware calls. *)
Record UserService : Type := {
  CheckEmailConfirmation : Context -> string -> option error
}.

(** [*do.Injector]: the services registered at start-up. *)
Record Injector : Type := {
  inj_UserSessionService : option UserSessionService;
  inj_UserService : option UserService
}.

(** [do.MustInvoke[T](i)]: the service, or a panic when none is
    registered. *)
Definition MustInvoke {T : Type} (name : string) (svc : option T) : Echo T :=
  match svc with
  | Some s => mret s
  | None => panic ("DI: could not find service `" ++ name ++ "`")%string
  end.

Section Middleware.

Variable w : World.

(** [ctx.JSON(code, body)]. *)
Definition ctx_JSON (code : Z) (body : ProblemDetail) : Echo (option error) :=
  _ ← emit (EvJSON code body);
  mret (WriteJSON w code body).

Definition util_ExtractToken : Echo (goret string) :=
  r ← ctx_Request;
  _ ← emit EvExtractToken;
  mret (ExtractToken w r).

Definition util_LoadPublicKey (path : string) : Echo (goret PublicKey) :=
  _ ← emit (EvLoadPublicKey path);
  mret (LoadPublicKey w path).

Definition userSession_GetUser (svc : UserSessionService) (c : Context)
    (tokenString : string) : Echo (goret Session) :=
  _ ← emit (EvGetUser tokenString);
  mret (GetUser svc c tokenString).

Definition userService_CheckEmailConfirmation (svc : UserService)
    (c : Context) (email : string) : Echo (option error) :=
  _ ← emit (EvCheckEmailConfirmation email);
  mret (CheckEmailConfirmation svc c email).

(** The key function both middlewares hand to [jwt.Parse]: the public key
    for a token of the ECDSA family, [ErrorUnexpectedMethod] for any
    other. *)
Definition keyFunc (publicKey : PublicKey) (token : JwtToken) : goret PublicKey :=
  if is_ECDSA (Method token) then Val publicKey
  else Fail ErrorUnexpectedMethod.

(** [jwt.Parse(tokenString, keyFunc)] of golang-jwt, the library's
    [ParseWithClaims]: decode without verifying; ask [keyFunc] for the
    key and stop on its error (wrapped as unverifiable unless it already
    is a validation error); validate the claims; verify the signature
    with the key, or-ing its failure into the error's bitfield; the token
    is [Valid] and the error nil only when no bit is set. *)
Definition jwt_Parse (tokenString : string)
    (keyFunc : JwtToken -> goret PublicKey) : Echo (option JwtToken * option error) :=
  _ ← emit (EvParseUnverified tokenString);
  match ParseUnverified w tokenString with
  | Fail err => mret (None, Some err)
  | Val token =>
    _ ← emit (EvKeyfunc (Method token));
    match keyFunc token with
    | Fail (ValidationError i e) => mret (Some token, Some (ValidationError i e))
    | Fail (ValidationErrorText t e) => mret (Some token, Some (ValidationErrorText t e))
    | Fail err => mret (Some token, Some (ValidationError err ValidationErrorUnverifiable))
    | Val key =>
      _ ← emit EvClaimsValid;
      let vErr : error :=
        match ClaimsValid w token with
        | None => ValidationErrorText "" 0
        | Some (ValidationError i e) => ValidationError i e
        | Some (ValidationErrorText t e) => ValidationErrorText t e
        | Some err => ValidationError err ValidationErrorClaimsInvalid
        end in
      _ ← emit EvMethodVerify;
      let vErr : error :=
        match MethodVerify w token key with
        | None => vErr
        | Some err =>
          ValidationError err (Z.lor (vErr_Errors vErr) ValidationErrorSignatureInvalid)
        end in
      if vErr_Errors vErr =? 0
      then mret (Some (set_Valid token true), None)
      else mret (Some token, Some vErr)
    end
  end.

End Middleware.

Section Gates.

Variable w : World.

(** [CheckLoggedIn(i)(next)]: the handler the middleware returns. *)
Definition CheckLoggedIn (i : Injector) (next : HandlerFunc) : Echo (option error) :=
  userSession ← MustInvoke "domain.UserSessionService" (inj_UserSessionService i);
  userService ← MustInvoke "domain.UserService" (inj_UserService i);
  r ← ctx_Request;
  let authorizationHeader := Header_Get (Header r) "Authorization" in
  if decide (authorizationHeader = "") then
    ctx_JSON w StatusUnauthorized
      {| Status := StatusUnauthorized;
         Title := "Access Denied";
         Detail := "You need to be logged in to access this resource." |}
  else
  extracted ← util_ExtractToken w;
  match extracted with
  | Fail _ =>
    ctx_JSON w StatusUnauthorized
      {| Status := StatusUnauthorized;
         Title := "Invalid Session";
         Detail := "Your session is invalid or missing. Please log in again." |}
  | Val tokenString =>
  loaded ← util_LoadPublicKey w (SecretKeyPath w);
  match loaded with
  | Fail _ =>
    ctx_JSON w StatusInternalServerError
      {| Status := StatusInternalServerError;
         Title := "Internal Server Error";
         Detail := "Failed to load public key for token verification." |}
  | Val publicKey =>
  parsed ← jwt_Parse w tokenString (keyFunc publicKey);
  let invalid (_ : unit) :=
    ctx_JSON w StatusUnauthorized
      {| Status := StatusUnauthorized;
         Title := "Invalid Session";
         Detail := "Your session is invalid. Please log in again." |} in
  match parsed with
  | (_, Some _) => invalid tt
  | (None, None) => panic "invalid memory address or nil pointer dereference"
  | (Some token, None) =>
  if negb (Valid token) then invalid tt else
  r ← ctx_Request;
  found ← userSession_GetUser userSession (Ctx r) tokenString;
  match found with
  | Fail err =>
    if errors_Is err ErrSessionNotFound then
      ctx_JSON w StatusForbidden
        {| Status := StatusForbidden;
           Title := "Session Expired";
           Detail := "Your session has expired. Please log in again to continue." |}
    else
      ctx_JSON w StatusUnauthorized
        {| Status := StatusUnauthorized;
           Title := "Unauthorized Access";
           Detail := "Your session is invalid. Please log in again." |}
  | Val user =>
  r ← ctx_Request;
  confirmed ← userService_CheckEmailConfirmation userService (Ctx r) (Email user);
  match confirmed with
  | Some _ =>
    ctx_JSON w StatusForbidden
      {| Status := StatusForbidden;
         Title := "Email Not Confirmed";
         Detail := "You need to confirm your email address before accessing this resource." |}
  | None =>
  r ← ctx_Request;
  _ ← ctx_SetRequest (WithContext r (WithValue (Ctx r) UserKey (VSession user)));
  call next
  end end end end end.

(** [ConfirmPassword(i)(next)]: the handler the middleware returns. *)
Definition ConfirmPassword (i : Injector) (next : HandlerFunc) : Echo (option error) :=
  userSession ← MustInvoke "domain.UserSessionService" (inj_UserSessionService i);
  r ← ctx_Request;
  let authorizationHeader := Header_Get (Header r) "Authorization" in
  if decide (authorizationHeader = "") then
    ctx_JSON w StatusUnauthorized
      {| Status := StatusUnauthorized;
         Title := "Access Denied";
         Detail := "You need to be logged in to access this resource." |}
  else
  extracted ← util_ExtractToken w;
  match extracted with
  | Fail _ =>
    ctx_JSON w StatusUnauthorized
      {| Status := StatusUnauthorized;
         Title := "Invalid Session";
         Detail := "Your session is invalid or missing. Please log in again." |}
  | Val tokenString =>
  loaded ← util_LoadPublicKey w (SecretKeyPath w);
  match loaded with
  | Fail _ =>
    ctx_JSON w StatusInternalServerError
      {| Status := StatusInternalServerError;
         Title := "Internal Server Error";
         Detail := "Failed to verify your account." |}
  | Val publicKey =>
  parsed ← jwt_Parse w tokenString (keyFunc publicKey);
  let invalid (_ : unit) :=
    ctx_JSON w StatusUnauthorized
      {| Status := StatusUnauthorized;
         Title := "Invalid Session";
         Detail := "Your session is invalid. Please log in again." |} in
  match parsed with
  | (_, Some _) => invalid tt
  | (None, None) => panic "invalid memory address or nil pointer dereference"
  | (Some token, None) =>
  if negb (Valid token) then invalid tt else
  r ← ctx_Request;
  found ← userSession_GetUser userSession (Ctx r) tokenString;
  match found with
  | Fail err =>
    if errors_Is err ErrSessionNotFound then
      ctx_JSON w StatusForbidden
        {| Status := StatusForbidden;
           Title := "Session Expired";
           Detail := "Your session has expired. Please log in again to continue." |}
    else
      ctx_JSON w StatusUnauthorized
        {| Status := StatusUnauthorized;
           Title := "Unauthorized Access";
           Detail := "Your session is invalid. Please log in again." |}
  | Val user =>
  r ← ctx_Request;
  _ ← ctx_SetRequest (WithContext r (WithValue (Ctx r) UserKey (VSession user)));
  call next
  end end end end.

End Gates.

(** Serving one request: the handler run on a fresh echo context. *)
Definition serve (h : Echo (option error)) (req : Request)
    : outcome (option error) * St :=
  h {| st_request := req; st_log := [] |}.

(* ===================================================================== *)
(** ** Reading a run *)
(* ===================================================================== *)

(** The JSON responses written, the requests handed to the next handler and
    the requests installed with [SetRequest], each in order. *)
Definition responses (log : list Event) : list (Z * ProblemDetail) :=
  omap (fun e => match e with EvJSON c b => Some (c, b) | _ => None end) log.

Definition handler_calls (log : list Event) : list Request :=
  omap (fun e => match e with EvNext r => Some r | _ => None end) log.

Definition attached (log : list Event) : list Request :=
  omap (fun e => match e with EvSetRequest r => Some r | _ => None end) log.

(** Calls that neither answer the client, nor touch the request, nor reach
    the next handler, nor consult the user service. *)
Definition quiet_event (e : Event) : bool :=
  match e with
  | EvExtractToken | EvLoadPublicKey _ | EvParseUnverified _ | EvKeyfunc _
  | EvClaimsValid | EvMethodVerify | EvGetUser _ => true
  | _ => false
  end.

Definition quiet (log : list Event) : bool := forallb quiet_event log.

(** The e-mail confirmation check was reached. *)
Definition reached_check (log : list Event) : bool :=
  existsb (fun e => match e with EvCheckEmailConfirmation _ => true | _ => false end) log.

(** An event without the free-text detail of its response. *)
Definition erase_detail (e : Event) : Event :=
  match e with
  | EvJSON c b => EvJSON c {| Status := Status b; Title := Title b; Detail := "" |}
  | _ => e
  end.

(** An injector with both services registered, as the application's
    start-up builds it; with a service missing, [do.MustInvoke] panics
    before the gate looks at the request. *)
Definition injector (ss : UserSessionService) (us : UserService) : Injector :=
  {| inj_UserSessionService := Some ss; inj_UserService := Some us |}.

(** The request carries a token that [jwt.Parse] accepts under the loaded
    key: the header is there, the token is extracted, the key loads, the
    token decodes to the ECDSA family, and its claims and signature
    check. *)
Definition verified (w : World) (req : Request) (tokenString : string)
    (publicKey : PublicKey) (token : JwtToken) : Prop :=
  Header_Get (Header req) "Authorization" <> "" /\
  ExtractToken w req = Val tokenString /\
  LoadPublicKey w (SecretKeyPath w) = Val publicKey /\
  ParseUnverified w tokenString = Val token /\
  is_ECDSA (Method token) = true /\
  ClaimsValid w token = None /\
  MethodVerify w token publicKey = None.

(** [jwt.Parse] returns an error for the token, under the key function of
    the gates. *)
Definition parse_fails (w : World) (tokenString : string) (publicKey : PublicKey) : Prop :=
  forall s, exists tok err,
    (jwt_Parse w tokenString (keyFunc publicKey) s).1 = Ret (tok, Some err).

(** The calls both gates make up to the key function. *)
Definition up_to_keyfunc (w : World) (tokenString : string) (token : JwtToken)
    : list Event :=
  [EvExtractToken; EvLoadPublicKey (SecretKeyPath w);
   EvParseUnverified tokenString; EvKeyfunc (Method token)].

(** The calls both gates make up to the session lookup, for a token that
    verifies. *)
Definition up_to_lookup (w : World) (tokenString : string) (token : JwtToken)
    : list Event :=
  up_to_keyfunc w tokenString token ++
  [EvClaimsValid; EvMethodVerify; EvGetUser tokenString].

(** The request an admitted handler receives: the original one, its
    context extended with the session under [UserKey]. *)
Definition admitted_request (req : Request) (user : Session) : Request :=
  WithContext req (WithValue (Ctx req) UserKey (VSession user)).

(** The run wrote exactly one response, with this status and title, left
    the request as it was, and neither installed a request nor called the
    next handler. *)
Definition rejects (req : Request) (run : outcome (option error) * St)
    (code : Z) (title : string) : Prop :=
  exists body,
    responses (st_log run.2) = [(code, body)] /\
    Status body = code /\ Title body = title /\
    handler_calls (st_log run.2) = [] /\
    attached (st_log run.2) = [] /\
    st_request run.2 = req.

(** The run wrote no response; its last two calls installed the request
    carrying [user] under [UserKey] and then handed that request to the next
    handler, whose result it returned; nothing else was installed and the
    handler was called that one time. *)
Definition admits (req : Request) (next : HandlerFunc)
    (run : outcome (option error) * St) (user : Session) : Prop :=
  let r := admitted_request req user in
  Value (Ctx r) UserKey = Some (VSession user) /\
  run.1 = Ret (next r) /\
  st_request run.2 = r /\
  responses (st_log run.2) = [] /\
  attached (st_log run.2) = [r] /\
  handler_calls (st_log run.2) = [r] /\
  exists pre, st_log run.2 = pre ++ [EvSetRequest r; EvNext r].

Section Classification.

Variable w : World.
Variables (ss : UserSessionService) (us : UserService).
Variable next : HandlerFunc.
Variable req : Request.

(** How a run of [CheckLoggedIn] (left) and the run of [ConfirmPassword]
    on the same request (right) can relate. *)
Inductive gate_runs :
  outcome (option error) * St -> outcome (option error) * St -> Prop :=
| both_reject (pre : list Event) (code : Z) (ba bb : ProblemDetail) :
    quiet pre = true ->
    Status ba = code -> Status bb = code -> Title ba = Title bb ->
    gate_runs
      (Ret (WriteJSON w code ba),
       {| st_request := req; st_log := pre ++ [EvJSON code ba] |})
      (Ret (WriteJSON w code bb),
       {| st_request := req; st_log := pre ++ [EvJSON code bb] |})
| only_CheckLoggedIn_rejects (pre : list Event) (user : Session) (err : error)
    (body : ProblemDetail) :
    quiet pre = true ->
    CheckEmailConfirmation us (Ctx req) (Email user) = Some err ->
    Status body = StatusForbidden -> Title body = "Email Not Confirmed" ->
    gate_runs
      (Ret (WriteJSON w StatusForbidden body),
       {| st_request := req;
          st_log := pre ++ [EvCheckEmailConfirmation (Email user);
                            EvJSON StatusForbidden body] |})
      (Ret (next (admitted_request req user)),
       {| st_request := admitted_request req user;
          st_log := pre ++ [EvSetRequest (admitted_request req user);
                            EvNext (admitted_request req user)] |})
| both_admit (pre : list Event) (user : Session) :
    quiet pre = true ->
    CheckEmailConfirmation us (Ctx req) (Email user) = None ->
    gate_runs
      (Ret (next (admitted_request req user)),
       {| st_request := admitted_request req user;
          st_log := pre ++ [EvCheckEmailConfirmation (Email user);
                            EvSetRequest (admitted_request req user);
                            EvNext (admitted_request req user)] |})
      (Ret (next (admitted_request req user)),
       {| st_request := admitted_request req user;
          st_log := pre ++ [EvSetRequest (admitted_request req user);
                            EvNext (admitted_request req user)] |}).

End Classification.

(* ===================================================================== *)
(** ** Image upload ([client/cloudFlare.go]) *)
(* ===================================================================== *)

Module CloudFlare.

(** The sentinel errors of package [client]. *)
Inductive ClientError : Type :=
| ErrOpenFile
| ErrCreateFormFile
| ErrCopyFile
| ErrCloseWriter
| ErrCreateRequest
| ErrSendRequest
| ErrReadResponse
| ErrDecodeJSON
| ErrUploadFailed
| ErrCloudflareFailed.

(** The [Result] field of [CloudflareResponse]. *)
Record CloudflareResult : Type := {
  ID : string;
  Filename : string;
  Uploaded : string;
  RequireSignedURLs : bool;
  Variants : list string
}.

(** [CloudflareResponse]. *)
Record CloudflareResponse : Type := {
  Result : CloudflareResult;
  Success : bool;
  Errors : list string;
  Messages : list string
}.

(** [multipart.FileHeader], the part [UploadImage] reads. *)
Record FileHeader : Type := { fh_Filename : string }.

(** An [http.Request] as [UploadImage] builds it. *)
Record HttpRequest : Type := {
  req_Method : string;
  req_URL : string;
  req_Body : string;
  req_Header : gmap string string
}.

(** An [http.Response]: the status and what reading the body gives. *)
Record HttpResponse : Type := {
  StatusCode : Z;
  Body : goret string
}.

(** What [UploadImage] calls: configuration, the file and multipart
    plumbing, the HTTP client and the JSON decoder. *)
Record Env : Type := {
  (** [config.Env.CloudFlareAccountAPI] *)
  CloudFlareAccountAPI : string;
  (** [config.Env.CloudFlareApiKey] *)
  CloudFlareApiKey : string;
  (** [image.Open()]: the content of the file *)
  Open : FileHeader -> goret string;
  (** [writer.CreateFormFile("file", filename)] *)
  CreateFormFile : string -> string -> option error;
  (** [io.Copy(part, file)] *)
  Copy : string -> option error;
  (** [writer.Close()] *)
  Close : option error;
  (** the bytes of the form once closed, from file name and content *)
  FormBytes : string -> string -> string;
  (** [writer.FormDataContentType()] *)
  FormDataContentType : string;
  (** [http.NewRequest(method, url, body)] *)
  NewRequest : string -> string -> string -> goret HttpRequest;
  (** [client.Do(req)] *)
  Do : HttpRequest -> goret HttpResponse;
  (** [jsoniter.Unmarshal(respBody, &cloudflareResp)] *)
  Unmarshal : string -> goret CloudflareResponse
}.

(** [req.Header.Set(key, value)]. *)
Definition Header_Set (r : HttpRequest) (key value : string) : HttpRequest :=
  {| req_Method := req_Method r; req_URL := req_URL r; req_Body := req_Body r;
     req_Header := <[key := value]> (req_Header r) |}.

(** [(c *cloudFlareService) UploadImage(image)]: the pair [(url, err)] it
    returns, or the run-time panic of indexing an empty slice. *)
Definition UploadImage (e : Env) (image : FileHeader)
    : outcome (string * option ClientError) :=
  match Open e image with
  | Fail _ => Ret ("", Some ErrOpenFile)
  | Val file =>
  match CreateFormFile e "file" (fh_Filename image) with
  | Some _ => Ret ("", Some ErrCreateFormFile)
  | None =>
  match Copy e file with
  | Some _ => Ret ("", Some ErrCopyFile)
  | None =>
  match Close e with
  | Some _ => Ret ("", Some ErrCloseWriter)
  | None =>
  let body := FormBytes e (fh_Filename image) file in
  match NewRequest e "POST" (CloudFlareAccountAPI e) body with
  | Fail _ => Ret ("", Some ErrCreateRequest)
  | Val req =>
  let req := Header_Set req "Authorization" ("Bearer " ++ CloudFlareApiKey e)%string in
  let req := Header_Set req "Content-Type" (FormDataContentType e) in
  match Do e req with
  | Fail _ => Ret ("", Some ErrSendRequest)
  | Val resp =>
  match Body resp with
  | Fail _ => Ret ("", Some ErrReadResponse)
  | Val respBody =>
  if negb (StatusCode resp =? StatusOK) then Ret ("", Some ErrUploadFailed) else
  match Unmarshal e respBody with
  | Fail _ => Ret ("", Some ErrDecodeJSON)
  | Val cloudflareResp =>
  if negb (Success cloudflareResp) then Ret ("", Some ErrCloudflareFailed) else
  match Variants (Result cloudflareResp) !! 0%nat with
  | None =>
    Panic "runtime error: index out of range [0] with length 0"
  | Some imageURL => Ret (imageURL, None)
  end end end end end end end end end.

(** Every call of [UploadImage] up to the decoding succeeds, Cloudflare
    answers 200, and the body decodes to [r]. *)
Definition answered (e : Env) (image : FileHeader) (r : CloudflareResponse) : Prop :=
  exists file req resp respBody,
    Open e image = Val file /\
    CreateFormFile e "file" (fh_Filename image) = None /\
    Copy e file = None /\
    Close e = None /\
    NewRequest e "POST" (CloudFlareAccountAPI e)
      (FormBytes e (fh_Filename image) file) = Val req /\
    Do e (Header_Set
            (Header_Set req "Authorization" ("Bearer " ++ CloudFlareApiKey e)%string)
            "Content-Type" (FormDataContentType e)) = Val resp /\
    Body resp = Val respBody /\
    StatusCode resp = StatusOK /\
    Unmarshal e respBody = Val r.

End CloudFlare.

(* ===================================================================== *)
(** ** The token codec of the specification *)
(* ===================================================================== *)

Module TokenCodec.

(** The signing-method tag of a token. *)
Inductive Alg : Type :=
| ES256
| ES384
| ES512
| HS256
| RS256
| AlgNone.

(** The configured family is the elliptic-curve one. *)
Definition is_EC (a : Alg) : bool :=
  match a with
  | ES256 | ES384 | ES512 => true
  | _ => false
  end.

(** What a signature covers: subject identifier, issued-at, expiry. Times
    are seconds since the epoch. *)
Record Payload : Type := { sub : UUID; iat : Z; exp : Z }.

Inductive Failure : Type :=
| TokenInvalid
| TokenExpired
| UnexpectedSigningMethod.

Section Codec.

(** The signature scheme and the configured key pair. *)
Variables PrivateKey PublicKey Signature : Type.
Variable sign : PrivateKey -> Payload -> Signature.
Variable check : PublicKey -> Payload -> Signature -> bool.

(** A bearer token: tag, payload, signature. The wire encoding is left
    out; a token is the triple it decodes to. *)
Record Token : Type := {
  alg : Alg;
  payload : Payload;
  signature : Signature
}.

(** Modelled from the spec: the token codec's [Issue(subjectID, validity)],
    absent from the sources. "Produces a signature over a payload
    containing subject identifier, issued-at, and an expiry timestamp =
    issued-at + validity", with an elliptic-curve signing algorithm. [now]
    is the clock at issue. *)
Definition Issue (sk : PrivateKey) (now : Z) (subjectID : UUID) (validity : Z)
    : Token :=
  let p := {| sub := subjectID; iat := now; exp := now + validity |} in
  {| alg := ES256; payload := p; signature := sign sk p |}.

(** Modelled from the spec: the token codec's [Verify(tokenString)], absent
    from the sources. "Checks the signing method tag matches the expected
    family before trusting any decoded field", "checks expiry strictly
    (expiry <= now => TokenExpired)" whatever the signature, and "checks
    signature against the public key". [now] is the clock at
    verification. *)
Definition Verify (pk : PublicKey) (now : Z) (t : Token) : Failure + UUID :=
  if negb (is_EC (alg t)) then inl UnexpectedSigningMethod
  else if exp (payload t) <=? now then inl TokenExpired
  else if negb (check pk (payload t) (signature t)) then inl TokenInvalid
  else inr (sub (payload t)).

End Codec.

Arguments alg {Signature} t.
Arguments payload {Signature} t.
Arguments signature {Signature} t.
Arguments Issue {PrivateKey Signature} sign sk now subjectID validity.
Arguments Verify {PublicKey Signature} check pk now t.

(** A toy scheme to run the codec on: the signature is a keyed checksum of
    the payload and both keys are the same number. *)
Definition toy_digest (p : Payload) : Z := sub p + 31 * iat p + 961 * exp p.
Definition toy_sign (sk : Z) (p : Payload) : Z := sk * toy_digest p + sk.
Definition toy_check (pk : Z) (p : Payload) (sig : Z) : bool :=
  sig =? pk * toy_digest p + pk.

End TokenCodec.

(* ===================================================================== *)
(** ** A sample deployment *)
(* ===================================================================== *)

Module Sample.

Definition key : PublicKey := {| Curve := "P-256"; X := 7; Y := 11 |}.

Definition alice : Session :=
  {| Token := "tok-alice"; Name := "Alice"; UserID := 42;
     Email := "alice@example.com"; AvatarURL := "" |}.

Definition es256 (raw : string) : JwtToken :=
  {| Raw := raw; Method := SigningMethodECDSA "ES256";
     Claims := [("sub", "42")]; Signature := "sig"; Valid := false |}.

Definition hs256 (raw : string) : JwtToken :=
  {| Raw := raw; Method := SigningMethodHMAC "HS256";
     Claims := [("sub", "42")]; Signature := "sig"; Valid := false |}.

(** Tokens are taken from the header as they are; [tok-hmac] decodes to an
    HMAC token, [garbage] does not decode, every other string decodes to
    an ES256 token whose claims and signature check. *)
Definition world : World :=
  {| SecretKeyPath := "keys/public.pem";
     ExtractToken := fun r => Val (Header_Get (Header r) "Authorization");
     LoadPublicKey := fun _ => Val key;
     ParseUnverified := fun s =>
       if decide (s = "garbage")
       then Fail (ValidationErrorText "token contains an invalid number of segments" 1)
       else if decide (s = "tok-hmac") then Val (hs256 s) else Val (es256 s);
     ClaimsValid := fun _ => None;
     MethodVerify := fun _ _ => None;
     WriteJSON := fun _ _ => None |}.

(** The same deployment with the key file missing. *)
Definition world_no_key : World :=
  {| SecretKeyPath := "keys/public.pem";
     ExtractToken := ExtractToken world;
     LoadPublicKey := fun _ =>
       Fail (ErrOther "open keys/public.pem: no such file or directory");
     ParseUnverified := ParseUnverified world;
     ClaimsValid := ClaimsValid world;
     MethodVerify := MethodVerify world;
     WriteJSON := WriteJSON world |}.

(** A session service that knows Alice's token, has lost [tok-gone], and
    cannot reach its store for [tok-down]. *)
Definition sessions : UserSessionService :=
  {| GetUser := fun _ t =>
       if decide (t = "tok-alice") then Val alice
       else if decide (t = "tok-gone") then Fail ErrSessionNotFound
       else if decide (t = "tok-down")
            then Fail (ErrOther "dial tcp 127.0.0.1:6379: connect: connection refused")
            else Fail ErrTokenInvalid |}.

Definition users_confirmed : UserService :=
  {| CheckEmailConfirmation := fun _ _ => None |}.

Definition users_unconfirmed : UserService :=
  {| CheckEmailConfirmation := fun _ _ => Some ErrEmailNotConfirmed |}.

(** A user service whose database is unreachable. *)
Definition users_down : UserService :=
  {| CheckEmailConfirmation := fun _ _ =>
       Some (ErrOther "dial tcp 127.0.0.1:3306: connect: connection refused") |}.

Definition bearer (t : string) : Request :=
  {| Header := {[ "Authorization" := [t] ]}; Ctx := [] |}.

Definition anonymous : Request := {| Header := ∅; Ctx := [] |}.

Definition handler : HandlerFunc := fun _ => None.

(** The two gates serving a request that carries [t], with user service
    [us]. *)
Definition logged_in (us : UserService) (t : string) : outcome (option error) * St :=
  serve (CheckLoggedIn world (injector sessions us) handler) (bearer t).

Definition password_gate (us : UserService) (t : string) : outcome (option error) * St :=
  serve (ConfirmPassword world (injector sessions us) handler) (bearer t).

(** A Cloudflare answer that reports success and lists no variant, as the
    body [{"success":true,"result":{"variants":[]}}] decodes. *)
Definition no_variants : CloudFlare.CloudflareResponse :=
  {| CloudFlare.Result :=
       {| CloudFlare.ID := ""; CloudFlare.Filename := ""; CloudFlare.Uploaded := "";
          CloudFlare.RequireSignedURLs := false; CloudFlare.Variants := [] |};
     CloudFlare.Success := true;
     CloudFlare.Errors := [];
     CloudFlare.Messages := [] |}.

(** An upload in which every call succeeds and Cloudflare answers 200 with
    [no_variants]. *)
Definition upload_env : CloudFlare.Env :=
  {| CloudFlare.CloudFlareAccountAPI := "https://api.cloudflare.com/client/v4/accounts/a/images/v1";
     CloudFlare.CloudFlareApiKey := "k";
     CloudFlare.Open := fun _ => Val "png-bytes";
     CloudFlare.CreateFormFile := fun _ _ => None;
     CloudFlare.Copy := fun _ => None;
     CloudFlare.Close := None;
     CloudFlare.FormBytes := fun name content => content;
     CloudFlare.FormDataContentType := "multipart/form-data; boundary=x";
     CloudFlare.NewRequest := fun m u b =>
       Val {| CloudFlare.req_Method := m; CloudFlare.req_URL := u;
              CloudFlare.req_Body := b; CloudFlare.req_Header := ∅ |};
     CloudFlare.Do := fun _ =>
       Val {| CloudFlare.StatusCode := 200; CloudFlare.Body := Val "body" |};
     CloudFlare.Unmarshal := fun _ => Val no_variants |}.

Definition picture : CloudFlare.FileHeader := {| CloudFlare.fh_Filename := "cat.png" |}.

End Sample.


(* ===================================================================== *)
(** ** The paths through the gates *)
(* ===================================================================== *)

(** The calls [jwt.Parse] makes. *)
Definition jwt_event (e : Event) : bool :=
  match e with
  | EvParseUnverified _ | EvKeyfunc _ | EvClaimsValid | EvMethodVerify => true
  | _ => false
  end.

Definition jwt_only (log : list Event) : bool := forallb jwt_event log.

(** The claims validation of [jwt.Parse] sets no bit of the error's
    bitfield: [Claims.Valid()] returns nil, or a validation error whose
    bitfield is zero. *)
Definition claims_clean (w : World) (token : JwtToken) : Prop :=
  match ClaimsValid w token with
  | None => True
  | Some (ValidationError _ bits) => bits = 0
  | Some (ValidationErrorText _ bits) => bits = 0
  | Some _ => False
  end.

(** [jwt.Parse] accepts the token of the request under the loaded key:
    as [verified], with the claims validation merely setting no bit. *)
Definition accepted (w : World) (req : Request) (tokenString : string)
    (publicKey : PublicKey) (token : JwtToken) : Prop :=
  Header_Get (Header req) "Authorization" <> "" /\
  ExtractToken w req = Val tokenString /\
  LoadPublicKey w (SecretKeyPath w) = Val publicKey /\
  ParseUnverified w tokenString = Val token /\
  is_ECDSA (Method token) = true /\
  claims_clean w token /\
  MethodVerify w token publicKey = None.

(** A body with this status and title. *)
Definition is_problem (body : ProblemDetail) (code : Z) (title : string) : Prop :=
  Status body = code /\ Title body = title.

(** The run that, after the calls [pre], answers [body] with status [code]
    and returns. *)
Definition rejected (w : World) (req : Request) (pre : list Event) (code : Z)
    (body : ProblemDetail) : outcome (option error) * St :=
  (Ret (WriteJSON w code body),
   {| st_request := req; st_log := pre ++ [EvJSON code body] |}).

(** The run that, after the calls [pre], installs the request carrying
    [user] and returns what the next handler returns on it. *)
Definition admitted (next : HandlerFunc) (req : Request) (pre : list Event)
    (user : Session) : outcome (option error) * St :=
  (Ret (next (admitted_request req user)),
   {| st_request := admitted_request req user;
      st_log := pre ++ [EvSetRequest (admitted_request req user);
                        EvNext (admitted_request req user)] |}).

Section Paths.

Variable w : World.
Variables (ss : UserSessionService) (us : UserService).
Variable next : HandlerFunc.
Variable req : Request.

(** The seven ways through the gates: what the collaborators answered, the
    run of [CheckLoggedIn] (left) and the run of [ConfirmPassword]
    (right). *)
Inductive gate_path :
  outcome (option error) * St -> outcome (option error) * St -> Prop :=
| path_no_header (ba bb : ProblemDetail) :
    Header_Get (Header req) "Authorization" = "" ->
    is_problem ba 401 "Access Denied" -> is_problem bb 401 "Access Denied" ->
    gate_path (rejected w req [] 401 ba) (rejected w req [] 401 bb)
| path_no_token (err : error) (ba bb : ProblemDetail) :
    Header_Get (Header req) "Authorization" <> "" ->
    ExtractToken w req = Fail err ->
    is_problem ba 401 "Invalid Session" -> is_problem bb 401 "Invalid Session" ->
    gate_path (rejected w req [EvExtractToken] 401 ba)
              (rejected w req [EvExtractToken] 401 bb)
| path_no_key (tokenString : string) (err : error) (ba bb : ProblemDetail) :
    Header_Get (Header req) "Authorization" <> "" ->
    ExtractToken w req = Val tokenString ->
    LoadPublicKey w (SecretKeyPath w) = Fail err ->
    is_problem ba 500 "Internal Server Error" ->
    is_problem bb 500 "Internal Server Error" ->
    gate_path
      (rejected w req [EvExtractToken; EvLoadPublicKey (SecretKeyPath w)] 500 ba)
      (rejected w req [EvExtractToken; EvLoadPublicKey (SecretKeyPath w)] 500 bb)
| path_refused (tokenString : string) (publicKey : PublicKey)
    (evs : list Event) (ba bb : ProblemDetail) :
    Header_Get (Header req) "Authorization" <> "" ->
    ExtractToken w req = Val tokenString ->
    LoadPublicKey w (SecretKeyPath w) = Val publicKey ->
    parse_fails w tokenString publicKey ->
    jwt_only evs = true ->
    is_problem ba 401 "Invalid Session" -> is_problem bb 401 "Invalid Session" ->
    gate_path
      (rejected w req
         ([EvExtractToken; EvLoadPublicKey (SecretKeyPath w)] ++ evs) 401 ba)
      (rejected w req
         ([EvExtractToken; EvLoadPublicKey (SecretKeyPath w)] ++ evs) 401 bb)
| path_no_session (tokenString : string) (publicKey : PublicKey)
    (token : JwtToken) (err : error) (code : Z) (title : string)
    (ba bb : ProblemDetail) :
    accepted w req tokenString publicKey token ->
    GetUser ss (Ctx req) tokenString = Fail err ->
    (code, title) =
      (if errors_Is err ErrSessionNotFound
       then (403, "Session Expired") else (401, "Unauthorized Access")) ->
    is_problem ba code title -> is_problem bb code title ->
    gate_path (rejected w req (up_to_lookup w tokenString token) code ba)
              (rejected w req (up_to_lookup w tokenString token) code bb)
| path_unconfirmed (tokenString : string) (publicKey : PublicKey)
    (token : JwtToken) (user : Session) (err : error) (body : ProblemDetail) :
    accepted w req tokenString publicKey token ->
    GetUser ss (Ctx req) tokenString = Val user ->
    CheckEmailConfirmation us (Ctx req) (Email user) = Some err ->
    is_problem body 403 "Email Not Confirmed" ->
    gate_path
      (rejected w req
         (up_to_lookup w tokenString token ++
          [EvCheckEmailConfirmation (Email user)]) 403 body)
      (admitted next req (up_to_lookup w tokenString token) user)
| path_admitted (tokenString : string) (publicKey : PublicKey)
    (token : JwtToken) (user : Session) :
    accepted w req tokenString publicKey token ->
    GetUser ss (Ctx req) tokenString = Val user ->
    CheckEmailConfirmation us (Ctx req) (Email user) = None ->
    gate_path
      (admitted next req
         (up_to_lookup w tokenString token ++
          [EvCheckEmailConfirmation (Email user)]) user)
      (admitted next req (up_to_lookup w tokenString token) user).

End Paths.

Module SampleGates.

(** The sample deployment reading a header it cannot take a token from. *)
Definition world_no_bearer : World :=
  {| SecretKeyPath := SecretKeyPath Sample.world;
     ExtractToken := fun _ => Fail (ErrOther "invalid authorization header");
     LoadPublicKey := LoadPublicKey Sample.world;
     ParseUnverified := ParseUnverified Sample.world;
     ClaimsValid := ClaimsValid Sample.world;
     MethodVerify := MethodVerify Sample.world;
     WriteJSON := WriteJSON Sample.world |}.

(** The sample deployment facing tokens signed with another key. *)
Definition world_forged : World :=
  {| SecretKeyPath := SecretKeyPath Sample.world;
     ExtractToken := ExtractToken Sample.world;
     LoadPublicKey := LoadPublicKey Sample.world;
     ParseUnverified := ParseUnverified Sample.world;
     ClaimsValid := ClaimsValid Sample.world;
     MethodVerify := fun _ _ => Some (ErrOther "crypto/ecdsa: verification error");
     WriteJSON := WriteJSON Sample.world |}.

(** The sample deployment facing tokens whose expiry has passed: the
    claims validation reports the expiry bit. *)
Definition world_expired : World :=
  {| SecretKeyPath := SecretKeyPath Sample.world;
     ExtractToken := ExtractToken Sample.world;
     LoadPublicKey := LoadPublicKey Sample.world;
     ParseUnverified := ParseUnverified Sample.world;
     ClaimsValid := fun _ => Some (ValidationErrorText "Token is expired" (Z.shiftl 1 4));
     MethodVerify := MethodVerify Sample.world;
     WriteJSON := WriteJSON Sample.world |}.

End SampleGates.

(* ===================================================================== *)
(** ** Image upload: the exchange with Cloudflare *)
(* ===================================================================== *)

(** The request [UploadImage] hands to the HTTP client once [NewRequest]
    has returned [req]: the bearer key and the form's content type are set
    on it. *)
Definition upload_request (e : CloudFlare.Env) (req : CloudFlare.HttpRequest)
    : CloudFlare.HttpRequest :=
  CloudFlare.Header_Set
    (CloudFlare.Header_Set req "Authorization"
       ("Bearer " ++ CloudFlare.CloudFlareApiKey e)%string)
    "Content-Type" (CloudFlare.FormDataContentType e).

(** Every call of [UploadImage] up to the exchange succeeds, and the
    client returns [resp]. *)
Definition upload_sent (e : CloudFlare.Env) (image : CloudFlare.FileHeader)
    (resp : CloudFlare.HttpResponse) : Prop :=
  exists file req,
    CloudFlare.Open e image = Val file /\
    CloudFlare.CreateFormFile e "file" (CloudFlare.fh_Filename image) = None /\
    CloudFlare.Copy e file = None /\
    CloudFlare.Close e = None /\
    CloudFlare.NewRequest e "POST" (CloudFlare.CloudFlareAccountAPI e)
      (CloudFlare.FormBytes e (CloudFlare.fh_Filename image) file) = Val req /\
    CloudFlare.Do e (upload_request e req) = Val resp.

(** The same environment behind another HTTP client. *)
Definition with_Do (e : CloudFlare.Env)
    (client : CloudFlare.HttpRequest -> goret CloudFlare.HttpResponse)
    : CloudFlare.Env :=
  {| CloudFlare.CloudFlareAccountAPI := CloudFlare.CloudFlareAccountAPI e;
     CloudFlare.CloudFlareApiKey := CloudFlare.CloudFlareApiKey e;
     CloudFlare.Open := CloudFlare.Open e;
     CloudFlare.CreateFormFile := CloudFlare.CreateFormFile e;
     CloudFlare.Copy := CloudFlare.Copy e;
     CloudFlare.Close := CloudFlare.Close e;
     CloudFlare.FormBytes := CloudFlare.FormBytes e;
     CloudFlare.FormDataContentType := CloudFlare.FormDataContentType e;
     CloudFlare.NewRequest := CloudFlare.NewRequest e;
     CloudFlare.Do := client;
     CloudFlare.Unmarshal := CloudFlare.Unmarshal e |}.

(** The same environment behind another JSON decoder. *)
Definition with_Unmarshal (e : CloudFlare.Env)
    (decode : string -> goret CloudFlare.CloudflareResponse) : CloudFlare.Env :=
  {| CloudFlare.CloudFlareAccountAPI := CloudFlare.CloudFlareAccountAPI e;
     CloudFlare.CloudFlareApiKey := CloudFlare.CloudFlareApiKey e;
     CloudFlare.Open := CloudFlare.Open e;
     CloudFlare.CreateFormFile := CloudFlare.CreateFormFile e;
     CloudFlare.Copy := CloudFlare.Copy e;
     CloudFlare.Close := CloudFlare.Close e;
     CloudFlare.FormBytes := CloudFlare.FormBytes e;
     CloudFlare.FormDataContentType := CloudFlare.FormDataContentType e;
     CloudFlare.NewRequest := CloudFlare.NewRequest e;
     CloudFlare.Do := CloudFlare.Do e;
     CloudFlare.Unmarshal := decode |}.

(** The request carries the environment's bearer key and content type. *)
Definition carries_credentials (e : CloudFlare.Env) (r : CloudFlare.HttpRequest) : Prop :=
  CloudFlare.req_Header r !! "Authorization" =
    Some ("Bearer " ++ CloudFlare.CloudFlareApiKey e)%string /\
  CloudFlare.req_Header r !! "Content-Type" =
    Some (CloudFlare.FormDataContentType e).

Module SampleUpload.

(** A Cloudflare answer listing two variants. *)
Definition two_variants : CloudFlare.CloudflareResponse :=
  {| CloudFlare.Result :=
       {| CloudFlare.ID := "img-1"; CloudFlare.Filename := "cat.png";
          CloudFlare.Uploaded := "2024-05-01T10:00:00Z";
          CloudFlare.RequireSignedURLs := false;
          CloudFlare.Variants :=
            ["https://imagedelivery.net/a/img-1/public";
             "https://imagedelivery.net/a/img-1/thumb"] |};
     CloudFlare.Success := true;
     CloudFlare.Errors := [];
     CloudFlare.Messages := [] |}.

(** The sample upload with Cloudflare answering [two_variants]. *)
Definition env : CloudFlare.Env :=
  with_Unmarshal Sample.upload_env (fun _ => Val two_variants).

(** A client that refuses requests without an Authorization header and
    otherwise answers as the sample one. *)
Definition strict_client (r : CloudFlare.HttpRequest) : goret CloudFlare.HttpResponse :=
  match CloudFlare.req_Header r !! "Authorization" with
  | Some _ => CloudFlare.Do env r
  | None => Fail (ErrOther "missing credentials")
  end.

(** The response of a server in trouble: status 502 and a readable body. *)
Definition bad_gateway : CloudFlare.HttpResponse :=
  {| CloudFlare.StatusCode := 502; CloudFlare.Body := Val "<html>502</html>" |}.

Definition env_bad_gateway : CloudFlare.Env :=
  with_Do env (fun _ => Val bad_gateway).

End SampleUpload.

(* ===================================================================== *)
(** ** Stores ([domain/store.go]) *)
(* ===================================================================== *)

Module StoreDomain.

(** A Go string seen as the runes its UTF-8 decoding yields, which is how
    [strings.TrimSpace] and the validator's length rules read it. *)
Definition runes : Type := list Z.

(** [unicode.IsSpace]: the Latin-1 white space, and beyond Latin-1 the
    runes of the Unicode White_Space property. *)
Definition IsSpace (r : Z) : bool :=
  if r <=? 255 then
    (r =? 9) || (r =? 10) || (r =? 11) || (r =? 12) || (r =? 13) ||
    (r =? 32) || (r =? 133) || (r =? 160)
  else
    (r =? 5760) || ((8192 <=? r) && (r <=? 8202)) || (r =? 8232) ||
    (r =? 8233) || (r =? 8239) || (r =? 8287) || (r =? 12288).

(** Dropping the leading white space. *)
Fixpoint TrimLeft (s : runes) : runes :=
  match s with
  | [] => []
  | r :: rest => if IsSpace r then TrimLeft rest else s
  end.

(** Dropping the trailing white space. *)
Definition TrimRight (s : runes) : runes := rev (TrimLeft (rev s)).

(** [strings.TrimSpace]: leading and trailing white space removed. *)
Definition TrimSpace (s : runes) : runes := TrimRight (TrimLeft s).

(** [ErrStoresNotFound], the [errors.New] value of this package, known by
    its message. *)
Definition ErrStoresNotFound : error := ErrOther "stores not found for this userID".

(** [StorePayload]. *)
Record StorePayload : Type := { Name : runes }.

(** [(s *StorePayload) trim()]: the payload after the call. *)
Definition trim (s : StorePayload) : StorePayload :=
  {| Name := TrimSpace (Name s) |}.

(** The first rule of a field the validator finds broken. *)
Record FieldError : Type := { Field : string; Tag : string }.

(** [validator.Struct] on the one field of [StorePayload], tagged
    [required,min=1,max=100]: the rules are tried in this order; a string
    is present when it is not empty, and its length is its number of
    runes. *)
Definition validate_Struct (s : StorePayload) : option FieldError :=
  if (length (Name s) =? 0)%nat
  then Some {| Field := "Name"; Tag := "required" |}
  else if (length (Name s) <? 1)%nat
  then Some {| Field := "Name"; Tag := "min" |}
  else if (100 <? length (Name s))%nat
  then Some {| Field := "Name"; Tag := "max" |}
  else None.

(** [(s *StorePayload) Validate()]: the payload after the call, trimmed in
    place, and the error or nil. *)
Definition Validate (s : StorePayload) : StorePayload * option FieldError :=
  let s := trim s in
  (s, validate_Struct s).

(** [time.Time] as seconds since the Unix epoch, in UTC; the zero time is
    the first second of year 1. *)
Definition Time : Type := Z.
Definition zeroTime : Time := -62135596800.

(** [Store], without the association field [User], of a type declared
    elsewhere, which [ToStore] leaves at its zero value. *)
Record Store : Type := {
  ID : UUID;
  StoreName : runes;
  UserID : UUID;
  CreatedAt : Time;
  UpdatedAt : Time;
  DeletedAt : option Time
}.

(** [(s *StorePayload) ToStore(userID)], with the identifier [uuid.New()]
    draws and the time [time.Now().UTC()] reads. *)
Definition ToStore (newID : UUID) (now : Time) (s : StorePayload) (userID : UUID)
    : Store :=
  {| ID := newID;
     StoreName := Name s;
     UserID := userID;
     CreatedAt := now;
     UpdatedAt := zeroTime;
     DeletedAt := None |}.

(** [(Store) TableName()]. *)
Definition TableName : string := "Store".

(** The runes of an ASCII string. *)
Fixpoint of_ascii (s : string) : runes :=
  match s with
  | EmptyString => []
  | String c rest => Z.of_N (Ascii.N_of_ascii c) :: of_ascii rest
  end.

End StoreDomain.

Module SampleStore.

(** A name typed with spaces and a tab around it. *)
Definition padded : StoreDomain.StorePayload :=
  {| StoreDomain.Name := [32; 32] ++ StoreDomain.of_ascii "Corner Shop" ++ [9; 32] |}.

Definition plain : StoreDomain.StorePayload :=
  {| StoreDomain.Name := StoreDomain.of_ascii "Corner Shop" |}.

End SampleStore.

(* ===================================================================== *)
(** ** The store handler *)
(* ===================================================================== *)

Module StoreHandler.

Definition StatusCreated : Z := 201.
Definition StatusNoContent : Z := 204.
Definition StatusBadRequest : Z := 400.
Definition StatusUnprocessableEntity : Z := 422.

(** [domain.StoreResponse]. *)
Record StoreResponse : Type := {
  ID : string;
  Name : string;
  CreatedAt : string
}.

(** What [ctx.JSON] is given to write. *)
Inductive Body : Type :=
| Problem (p : ProblemDetail)
| OneStore (s : StoreResponse)
| Stores (l : list StoreResponse).

(** The request as the handlers read it: path parameters, body, and the
    request context. *)
Record HRequest : Type := {
  Params : gmap string string;
  Payload : string;
  RequestCtx : Context
}.

(** [ctx.Param(name)]: the path parameter, or the empty string. *)
Definition Param (r : HRequest) (name : string) : string :=
  default EmptyString (Params r !! name).

Section Handler.

(** [domain.StoreNameUpdatePayload], declared elsewhere. *)
Variable StoreNameUpdatePayload : Type.

(** The calls a handler makes to its services, and what it writes. *)
Inductive Call : Type :=
| CallCheckStatus
| CallCreate (p : StoreDomain.StorePayload)
| CallGetAll
| CallUpdateName (storeID : UUID) (p : StoreNameUpdatePayload)
| CallDelete (storeID : UUID)
| WriteJSON (code : Z) (body : Body)
| WriteNoContent (code : Z).

(** What the handlers call: binding, the validation of the name payload,
    [uuid.Parse], the user and store services, and the sentinel of package
    [domain] for a request context without user. *)
Record Env : Type := {
  (** [ctx.Bind(&storePayload)] *)
  Bind : HRequest -> goret StoreDomain.StorePayload;
  (** [ctx.Bind(&storeNameUpdatePayload)] *)
  BindName : HRequest -> goret StoreNameUpdatePayload;
  (** [storeNameUpdatePayload.Validate()]: the payload after the call and
      the error or nil *)
  ValidateName : StoreNameUpdatePayload -> StoreNameUpdatePayload * option error;
  (** [uuid.Parse] *)
  uuid_Parse : string -> goret UUID;
  (** [userService.CheckStatus(ctx)] *)
  CheckStatus : Context -> option error;
  (** [storeService.Create(ctx, storePayload)] *)
  storeService_Create : Context -> StoreDomain.StorePayload -> goret StoreResponse;
  (** [storeService.GetAll(ctx)] *)
  storeService_GetAll : Context -> goret (list StoreResponse);
  (** [storeService.UpdateName(ctx, storeID, payload)] *)
  storeService_UpdateName : Context -> UUID -> StoreNameUpdatePayload -> option error;
  (** [storeService.Delete(ctx, storeID)] *)
  storeService_Delete : Context -> UUID -> option error;
  (** [domain.ErrUserNotFoundInContext] *)
  ErrUserNotFoundInContext : error
}.

Variable e : Env.

Definition invalid_request_422 : Call :=
  WriteJSON StatusUnprocessableEntity
    (Problem {| Status := StatusUnprocessableEntity;
                Title := "Invalid Request";
                Detail := "Oops! Something went wrong while processing your request. Please try again later." |}).

Definition invalid_request_400 : Call :=
  WriteJSON StatusBadRequest
    (Problem {| Status := StatusBadRequest;
                Title := "Invalid Request";
                Detail := "The data provided is incorrect or incomplete. Please verify and try again." |}).

Definition internal_server_error : Call :=
  WriteJSON StatusInternalServerError
    (Problem {| Status := StatusInternalServerError;
                Title := "Internal Server Error";
                Detail := "Oops! Something went wrong while processing your request. Please try again later." |}).

(** [(s *storeHandler) Create(ctx)]: its service calls and its response,
    in order. Logging is left out. *)
Definition Create (req : HRequest) : list Call :=
  match Bind e req with
  | Fail _ => [invalid_request_422]
  | Val storePayload =>
  let (storePayload, invalid) := StoreDomain.Validate storePayload in
  match invalid with
  | Some _ => [invalid_request_400]
  | None =>
  CallCreate storePayload ::
  match storeService_Create e (RequestCtx req) storePayload with
  | Fail _ => [internal_server_error]
  | Val storeResponse => [WriteJSON StatusCreated (OneStore storeResponse)]
  end end end.

(** [(s *storeHandler) GetAll(ctx)]. *)
Definition GetAll (req : HRequest) : list Call :=
  CallGetAll ::
  match storeService_GetAll e (RequestCtx req) with
  | Fail err =>
    if errors_Is err (ErrUserNotFoundInContext e) then
      [WriteJSON StatusForbidden
         (Problem {| Status := StatusForbidden;
                     Title := "Forbidden";
                     Detail := "User not found in context. Please log in again." |})]
    else if errors_Is err StoreDomain.ErrStoresNotFound then
      [WriteNoContent StatusNoContent]
    else [internal_server_error]
  | Val storeResponse => [WriteJSON StatusOK (Stores storeResponse)]
  end.

(** The answer of [UpdateName] and [Delete] to a failed status check, with
    the title each of them gives to the 403. *)
Definition status_failure (title : string) (err : error) : Call :=
  if errors_Is err ErrEmailNotConfirmed then
    WriteJSON StatusForbidden
      (Problem {| Status := StatusForbidden;
                  Title := title;
                  Detail := "You need to confirm your email to use this feature" |})
  else internal_server_error.

(** [(s *storeHandler) UpdateName(ctx)]. *)
Definition UpdateName (req : HRequest) : list Call :=
  let param := Param req "storeId" in
  match uuid_Parse e param with
  | Fail _ => [invalid_request_400]
  | Val storeID =>
  match BindName e req with
  | Fail _ => [invalid_request_422]
  | Val storeNameUpdatePayload =>
  let (storeNameUpdatePayload, invalid) := ValidateName e storeNameUpdatePayload in
  match invalid with
  | Some _ => [invalid_request_400]
  | None =>
  CallCheckStatus ::
  match CheckStatus e (RequestCtx req) with
  | Some err => [status_failure "unauthorized" err]
  | None =>
  CallUpdateName storeID storeNameUpdatePayload ::
  match storeService_UpdateName e (RequestCtx req) storeID storeNameUpdatePayload with
  | Some _ => [internal_server_error]
  | None => [WriteNoContent StatusOK]
  end end end end end.

(** [(s *storeHandler) Delete(ctx)]. *)
Definition Delete (req : HRequest) : list Call :=
  let param := Param req "storeId" in
  match uuid_Parse e param with
  | Fail _ => [invalid_request_400]
  | Val storeID =>
  CallCheckStatus ::
  match CheckStatus e (RequestCtx req) with
  | Some err => [status_failure "Unauthorized" err]
  | None =>
  CallDelete storeID ::
  match storeService_Delete e (RequestCtx req) storeID with
  | Some _ => [internal_server_error]
  | None => [WriteNoContent StatusNoContent]
  end end end.

(** The responses in a run, as status codes. *)
Definition statuses (run : list Call) : list Z :=
  omap (fun c => match c with
                 | WriteJSON code _ | WriteNoContent code => Some code
                 | _ => None
                 end) run.

(** A call that changes stores. *)
Definition mutates (c : Call) : bool :=
  match c with
  | CallCreate _ | CallUpdateName _ _ | CallDelete _ => true
  | _ => false
  end.

End Handler.

Arguments CallCheckStatus {StoreNameUpdatePayload}.
Arguments CallCreate {StoreNameUpdatePayload} p.
Arguments CallGetAll {StoreNameUpdatePayload}.
Arguments CallUpdateName {StoreNameUpdatePayload} storeID p.
Arguments CallDelete {StoreNameUpdatePayload} storeID.
Arguments WriteJSON {StoreNameUpdatePayload} code body.
Arguments WriteNoContent {StoreNameUpdatePayload} code.
Arguments Bind {StoreNameUpdatePayload} e.
Arguments BindName {StoreNameUpdatePayload} e.
Arguments ValidateName {StoreNameUpdatePayload} e.
Arguments uuid_Parse {StoreNameUpdatePayload} e.
Arguments CheckStatus {StoreNameUpdatePayload} e.
Arguments storeService_Create {StoreNameUpdatePayload} e.
Arguments storeService_GetAll {StoreNameUpdatePayload} e.
Arguments storeService_UpdateName {StoreNameUpdatePayload} e.
Arguments storeService_Delete {StoreNameUpdatePayload} e.
Arguments ErrUserNotFoundInContext {StoreNameUpdatePayload} e.
Arguments Create {StoreNameUpdatePayload} e req.
Arguments GetAll {StoreNameUpdatePayload} e req.
Arguments UpdateName {StoreNameUpdatePayload} e req.
Arguments Delete {StoreNameUpdatePayload} e req.
Arguments statuses {StoreNameUpdatePayload} run.
Arguments mutates {StoreNameUpdatePayload} c.
Arguments status_failure {StoreNameUpdatePayload} title err.
Arguments invalid_request_400 {StoreNameUpdatePayload}.
Arguments invalid_request_422 {StoreNameUpdatePayload}.
Arguments internal_server_error {StoreNameUpdatePayload}.

End StoreHandler.

Module SampleHandler.

(** A deployment of the store handler: the body is taken as the name, a
    name payload is valid when it is not empty, the only identifier that
    parses is [store-7], the user of the request has not confirmed their
    e-mail, and the user has no store. *)
Definition env : StoreHandler.Env string :=
  {| StoreHandler.Bind := fun r =>
       Val {| StoreDomain.Name := StoreDomain.of_ascii (StoreHandler.Payload r) |};
     StoreHandler.BindName := fun r => Val (StoreHandler.Payload r);
     StoreHandler.ValidateName := fun p =>
       (p, if decide (p = EmptyString) then Some (ErrOther "name is required") else None);
     StoreHandler.uuid_Parse := fun s =>
       if decide (s = "store-7") then Val 7 else Fail (ErrOther "invalid UUID length");
     StoreHandler.CheckStatus := fun _ => Some (ErrWrap "check status" ErrEmailNotConfirmed);
     StoreHandler.storeService_Create := fun _ p =>
       Val {| StoreHandler.ID := "store-8"; StoreHandler.Name := "Corner Shop";
              StoreHandler.CreatedAt := "2024-05-01T10:00:00Z" |};
     StoreHandler.storeService_GetAll := fun _ =>
       Fail (ErrWrap "get all" StoreDomain.ErrStoresNotFound);
     StoreHandler.storeService_UpdateName := fun _ _ _ => None;
     StoreHandler.storeService_Delete := fun _ _ => None;
     StoreHandler.ErrUserNotFoundInContext := ErrOther "user not found in context" |}.

(** The same deployment for a user whose e-mail is confirmed. *)
Definition env_confirmed : StoreHandler.Env string :=
  {| StoreHandler.Bind := StoreHandler.Bind env;
     StoreHandler.BindName := StoreHandler.BindName env;
     StoreHandler.ValidateName := StoreHandler.ValidateName env;
     StoreHandler.uuid_Parse := StoreHandler.uuid_Parse env;
     StoreHandler.CheckStatus := fun _ => None;
     StoreHandler.storeService_Create := StoreHandler.storeService_Create env;
     StoreHandler.storeService_GetAll := StoreHandler.storeService_GetAll env;
     StoreHandler.storeService_UpdateName := StoreHandler.storeService_UpdateName env;
     StoreHandler.storeService_Delete := StoreHandler.storeService_Delete env;
     StoreHandler.ErrUserNotFoundInContext := StoreHandler.ErrUserNotFoundInContext env |}.

Definition post (body : string) : StoreHandler.HRequest :=
  {| StoreHandler.Params := ∅; StoreHandler.Payload := body;
     StoreHandler.RequestCtx := [] |}.

Definition on_store (id body : string) : StoreHandler.HRequest :=
  {| StoreHandler.Params := {[ "storeId" := id ]}; StoreHandler.Payload := body;
     StoreHandler.RequestCtx := [] |}.

End SampleHandler.
(* ===================================================================== *)
(** * Proofs *)
(* ===================================================================== *)

(** Unfold one request through a gate down to the collaborators' answers. *)
Ltac gate_unfold :=
  unfold serve, CheckLoggedIn, ConfirmPassword, injector, MustInvoke,
    util_ExtractToken, util_LoadPublicKey, jwt_Parse, keyFunc,
    userSession_GetUser, userService_CheckEmailConfirmation,
    ctx_JSON, ctx_SetRequest, call, ctx_Request, emit, panic,
    mbind, mret, Echo_bind, Echo_ret.

Ltac gate_simpl :=
  cbn [inj_UserSessionService inj_UserService st_request st_log app fst snd
       vErr_Errors Z.eqb set_Valid Valid negb].

(** The same, keeping the log as the appends that built it. *)
Ltac gate_keep :=
  cbn [inj_UserSessionService inj_UserService st_request st_log fst snd
       Valid negb].

(** Enter a gate on a request whose Authorization header is not empty. *)
Ltac gate_start H :=
  gate_unfold; gate_simpl;
  destruct (decide _) as [?|_]; [exfalso; apply H; assumption|];
  gate_simpl.

(** Use a collaborator's answer. *)
Ltac gate_step H := rewrite H; gate_simpl.

Lemma quiet_app (l k : list Event) : quiet (l ++ k) = quiet l && quiet k.
Proof. apply forallb_app. Qed.

Lemma quiet_responses (l : list Event) : quiet l = true -> responses l = [].
Proof.
  induction l as [|e l IH]; [reflexivity|].
  cbn. intros H. apply andb_prop in H as [He Hl].
  destruct e; try discriminate; cbn; auto.
Qed.

Lemma quiet_handler_calls (l : list Event) : quiet l = true -> handler_calls l = [].
Proof.
  induction l as [|e l IH]; [reflexivity|].
  cbn. intros H. apply andb_prop in H as [He Hl].
  destruct e; try discriminate; cbn; auto.
Qed.

Lemma quiet_attached (l : list Event) : quiet l = true -> attached l = [].
Proof.
  induction l as [|e l IH]; [reflexivity|].
  cbn. intros H. apply andb_prop in H as [He Hl].
  destruct e; try discriminate; cbn; auto.
Qed.

Lemma quiet_not_reached (l : list Event) : quiet l = true -> reached_check l = false.
Proof.
  induction l as [|e l IH]; [reflexivity|].
  cbn. intros H. apply andb_prop in H as [He Hl].
  destruct e; try discriminate; cbn; auto.
Qed.

Lemma responses_app (l k : list Event) : responses (l ++ k) = responses l ++ responses k.
Proof. apply omap_app. Qed.

Lemma handler_calls_app (l k : list Event) :
  handler_calls (l ++ k) = handler_calls l ++ handler_calls k.
Proof. apply omap_app. Qed.

Lemma attached_app (l k : list Event) : attached (l ++ k) = attached l ++ attached k.
Proof. apply omap_app. Qed.

Lemma reached_check_app (l k : list Event) :
  reached_check (l ++ k) = reached_check l || reached_check k.
Proof. apply existsb_app. Qed.

(** A quiet prefix followed by one response is a rejection. *)
Lemma rejects_intro (req : Request) (run : outcome (option error) * St)
    (pre : list Event) (code : Z) (body : ProblemDetail) (title : string) :
  run.2 = {| st_request := req; st_log := pre ++ [EvJSON code body] |} ->
  quiet pre = true -> Status body = code -> Title body = title ->
  rejects req run code title.
Proof.
  intros E Q S T. exists body. rewrite E. cbn [st_log st_request].
  rewrite responses_app, handler_calls_app, attached_app.
  rewrite (quiet_responses _ Q), (quiet_handler_calls _ Q), (quiet_attached _ Q).
  repeat split; auto.
Qed.

(** A rejection has one status and one title. *)
Lemma rejects_unique (req : Request) (run : outcome (option error) * St)
    (c1 c2 : Z) (t1 t2 : string) :
  rejects req run c1 t1 -> rejects req run c2 t2 -> c1 = c2 /\ t1 = t2.
Proof.
  intros (b1 & R1 & _ & T1 & _) (b2 & R2 & _ & T2 & _).
  rewrite R1 in R2. injection R2 as -> ->. rewrite <- T1, <- T2. auto.
Qed.

(** A run does not both admit and reject. *)
Lemma admits_not_rejects (req : Request) (next : HandlerFunc)
    (run : outcome (option error) * St) (user : Session) (code : Z) (title : string) :
  admits req next run user -> rejects req run code title -> False.
Proof.
  intros (_ & _ & _ & R & _) (b & R' & _). rewrite R in R'. discriminate.
Qed.

(** A prefix without response, installation or handler call, followed by
    the installation and the call, is an admission. *)
Lemma admits_intro (req : Request) (next : HandlerFunc) (user : Session)
    (pre : list Event) :
  responses pre = [] -> attached pre = [] -> handler_calls pre = [] ->
  admits req next
    (Ret (next (admitted_request req user)),
     {| st_request := admitted_request req user;
        st_log := pre ++ [EvSetRequest (admitted_request req user);
                          EvNext (admitted_request req user)] |})
    user.
Proof.
  intros R A H. unfold admits. cbn [fst snd st_log st_request].
  rewrite responses_app, handler_calls_app, attached_app, R, A, H.
  repeat split; try reflexivity.
  exists pre. reflexivity.
Qed.

(** [jwt.Parse] always returns; it leaves the request alone, its calls are
    quiet, and a nil error comes with a token marked valid. *)
Lemma jwt_Parse_returns (w : World) (tokenString : string)
    (kf : JwtToken -> goret PublicKey) :
  exists (r : option JwtToken * option error) (evs : list Event),
    quiet evs = true /\
    (r.2 = None -> exists t, r.1 = Some t /\ Valid t = true) /\
    forall s, jwt_Parse w tokenString kf s =
      (Ret r, {| st_request := st_request s; st_log := st_log s ++ evs |}).
Proof.
  unfold jwt_Parse, emit, mbind, mret, Echo_bind, Echo_ret.
  destruct (ParseUnverified w tokenString) as [token|e0].
  2:{ do 2 eexists. split; [|split]; cycle 2.
      - intros s. reflexivity.
      - reflexivity.
      - discriminate. }
  destruct (kf token) as [key|e1].
  2:{ destruct e1;
        (do 2 eexists; split; [|split]; cycle 2;
         [intros s; cbn; rewrite <- app_assoc; reflexivity
         |reflexivity|discriminate]). }
  match goal with
  | |- context [Z.eqb ?v 0] => destruct (Z.eqb v 0)
  end.
  - do 2 eexists. split; [|split]; cycle 2.
    + intros s. cbn. rewrite <- !app_assoc. reflexivity.
    + reflexivity.
    + intros _. eexists. split; reflexivity.
  - do 2 eexists. split; [|split]; cycle 2.
    + intros s. cbn. rewrite <- !app_assoc. reflexivity.
    + reflexivity.
    + discriminate.
Qed.

(** A token of another signing family stops [jwt.Parse] at the key
    function: the error wraps [ErrorUnexpectedMethod], and neither the
    claims nor the signature have been looked at. *)
Lemma jwt_Parse_unexpected_method (w : World) (tokenString : string)
    (publicKey : PublicKey) (token : JwtToken) (s : St) :
  ParseUnverified w tokenString = Val token ->
  is_ECDSA (Method token) = false ->
  jwt_Parse w tokenString (keyFunc publicKey) s =
    (Ret (Some token,
          Some (ValidationError ErrorUnexpectedMethod ValidationErrorUnverifiable)),
     {| st_request := st_request s;
        st_log := st_log s ++ [EvParseUnverified tokenString; EvKeyfunc (Method token)] |}).
Proof.
  intros D M.
  unfold jwt_Parse, keyFunc, emit, mbind, mret, Echo_bind, Echo_ret.
  rewrite D. cbn [st_request st_log]. rewrite M, <- app_assoc. reflexivity.
Qed.

(* ===================================================================== *)
(** ** The gates, stage by stage *)
(* ===================================================================== *)

Section Stages.

Variable w : World.
Variables (ss : UserSessionService) (us : UserService).
Variable next : HandlerFunc.
Variable req : Request.

(** Both gates stop on an empty Authorization header with the response as
    their only call. *)
Lemma CheckLoggedIn_no_header :
  Header_Get (Header req) "Authorization" = EmptyString ->
  (serve (CheckLoggedIn w (injector ss us) next) req).2 =
    {| st_request := req;
       st_log :=
         [EvJSON StatusUnauthorized
            {| Status := StatusUnauthorized; Title := "Access Denied";
               Detail := "You need to be logged in to access this resource." |}] |}.
Proof.
  intros H. gate_unfold. gate_simpl.
  destruct (decide _) as [_|N]; [reflexivity|done].
Qed.

Lemma ConfirmPassword_no_header :
  Header_Get (Header req) "Authorization" = EmptyString ->
  (serve (ConfirmPassword w (injector ss us) next) req).2 =
    {| st_request := req;
       st_log :=
         [EvJSON StatusUnauthorized
            {| Status := StatusUnauthorized; Title := "Access Denied";
               Detail := "You need to be logged in to access this resource." |}] |}.
Proof.
  intros H. gate_unfold. gate_simpl.
  destruct (decide _) as [_|N]; [reflexivity|done].
Qed.

Variable tokenString : string.
Hypothesis has_header : Header_Get (Header req) "Authorization" <> EmptyString.
Hypothesis extracted : ExtractToken w req = Val tokenString.

(** The key cannot be loaded. *)
Lemma CheckLoggedIn_key_failure (err : error) :
  LoadPublicKey w (SecretKeyPath w) = Fail err ->
  (serve (CheckLoggedIn w (injector ss us) next) req).2 =
    {| st_request := req;
       st_log :=
         [EvExtractToken; EvLoadPublicKey (SecretKeyPath w);
          EvJSON StatusInternalServerError
            {| Status := StatusInternalServerError;
               Title := "Internal Server Error";
               Detail := "Failed to load public key for token verification." |}] |}.
Proof.
  intros K. gate_start has_header. gate_step extracted. gate_step K.
  reflexivity.
Qed.

Lemma ConfirmPassword_key_failure (err : error) :
  LoadPublicKey w (SecretKeyPath w) = Fail err ->
  (serve (ConfirmPassword w (injector ss us) next) req).2 =
    {| st_request := req;
       st_log :=
         [EvExtractToken; EvLoadPublicKey (SecretKeyPath w);
          EvJSON StatusInternalServerError
            {| Status := StatusInternalServerError;
               Title := "Internal Server Error";
               Detail := "Failed to verify your account." |}] |}.
Proof.
  intros K. gate_start has_header. gate_step extracted. gate_step K.
  reflexivity.
Qed.

Variable publicKey : PublicKey.
Hypothesis loaded : LoadPublicKey w (SecretKeyPath w) = Val publicKey.

Variable token : JwtToken.
Hypothesis decoded : ParseUnverified w tokenString = Val token.

(** A token of another signing family goes no further than the key
    function. *)
Lemma CheckLoggedIn_unexpected_method :
  is_ECDSA (Method token) = false ->
  (serve (CheckLoggedIn w (injector ss us) next) req).2 =
    {| st_request := req;
       st_log :=
         up_to_keyfunc w tokenString token ++
         [EvJSON StatusUnauthorized
            {| Status := StatusUnauthorized; Title := "Invalid Session";
               Detail := "Your session is invalid. Please log in again." |}] |}.
Proof.
  intros M. gate_start has_header. gate_step extracted. gate_step loaded.
  gate_step decoded. gate_step M. reflexivity.
Qed.

Lemma ConfirmPassword_unexpected_method :
  is_ECDSA (Method token) = false ->
  (serve (ConfirmPassword w (injector ss us) next) req).2 =
    {| st_request := req;
       st_log :=
         up_to_keyfunc w tokenString token ++
         [EvJSON StatusUnauthorized
            {| Status := StatusUnauthorized; Title := "Invalid Session";
               Detail := "Your session is invalid. Please log in again." |}] |}.
Proof.
  intros M. gate_start has_header. gate_step extracted. gate_step loaded.
  gate_step decoded. gate_step M. reflexivity.
Qed.

Hypothesis ecdsa : is_ECDSA (Method token) = true.
Hypothesis claims_ok : ClaimsValid w token = None.
Hypothesis signature_ok : MethodVerify w token publicKey = None.

(** Through verification, up to the session lookup. *)
Ltac gate_verify :=
  gate_start has_header; gate_step extracted; gate_step loaded;
  gate_step decoded; gate_step ecdsa; rewrite claims_ok, signature_ok;
  gate_simpl.

(** The session lookup fails. *)
Lemma CheckLoggedIn_lookup_failure (err : error) :
  GetUser ss (Ctx req) tokenString = Fail err ->
  (serve (CheckLoggedIn w (injector ss us) next) req).2 =
    {| st_request := req;
       st_log :=
         up_to_lookup w tokenString token ++
         [if errors_Is err ErrSessionNotFound then
            EvJSON StatusForbidden
              {| Status := StatusForbidden; Title := "Session Expired";
                 Detail := "Your session has expired. Please log in again to continue." |}
          else
            EvJSON StatusUnauthorized
              {| Status := StatusUnauthorized; Title := "Unauthorized Access";
                 Detail := "Your session is invalid. Please log in again." |}] |}.
Proof.
  intros G. gate_verify. gate_step G.
  destruct (errors_Is err ErrSessionNotFound); reflexivity.
Qed.

Lemma ConfirmPassword_lookup_failure (err : error) :
  GetUser ss (Ctx req) tokenString = Fail err ->
  (serve (ConfirmPassword w (injector ss us) next) req).2 =
    {| st_request := req;
       st_log :=
         up_to_lookup w tokenString token ++
         [if errors_Is err ErrSessionNotFound then
            EvJSON StatusForbidden
              {| Status := StatusForbidden; Title := "Session Expired";
                 Detail := "Your session has expired. Please log in again to continue." |}
          else
            EvJSON StatusUnauthorized
              {| Status := StatusUnauthorized; Title := "Unauthorized Access";
                 Detail := "Your session is invalid. Please log in again." |}] |}.
Proof.
  intros G. gate_verify. gate_step G.
  destruct (errors_Is err ErrSessionNotFound); reflexivity.
Qed.

Variable user : Session.
Hypothesis found : GetUser ss (Ctx req) tokenString = Val user.

(** The e-mail confirmation check fails, for whatever reason. *)
Lemma CheckLoggedIn_status_failure (err : error) :
  CheckEmailConfirmation us (Ctx req) (Email user) = Some err ->
  (serve (CheckLoggedIn w (injector ss us) next) req).2 =
    {| st_request := req;
       st_log :=
         up_to_lookup w tokenString token ++
         [EvCheckEmailConfirmation (Email user);
          EvJSON StatusForbidden
            {| Status := StatusForbidden; Title := "Email Not Confirmed";
               Detail := "You need to confirm your email address before accessing this resource." |}] |}.
Proof.
  intros C. gate_verify. gate_step found. gate_step C. reflexivity.
Qed.

(** Every check passes. *)
Lemma CheckLoggedIn_admits :
  CheckEmailConfirmation us (Ctx req) (Email user) = None ->
  serve (CheckLoggedIn w (injector ss us) next) req =
    (Ret (next (admitted_request req user)),
     {| st_request := admitted_request req user;
        st_log :=
          (up_to_lookup w tokenString token ++
           [EvCheckEmailConfirmation (Email user)]) ++
          [EvSetRequest (admitted_request req user);
           EvNext (admitted_request req user)] |}).
Proof.
  intros C. gate_verify. gate_step found. gate_step C. reflexivity.
Qed.

Lemma ConfirmPassword_admits :
  serve (ConfirmPassword w (injector ss us) next) req =
    (Ret (next (admitted_request req user)),
     {| st_request := admitted_request req user;
        st_log :=
          up_to_lookup w tokenString token ++
          [EvSetRequest (admitted_request req user);
           EvNext (admitted_request req user)] |}).
Proof.
  gate_verify. gate_step found. reflexivity.
Qed.

End Stages.

(* ===================================================================== *)
(** ** Every run of the two gates, side by side *)
(* ===================================================================== *)

(** Every request falls in one of the three cases of [gate_runs]. *)
Lemma gates_classified (w : World) (ss : UserSessionService) (us : UserService)
    (next : HandlerFunc) (req : Request) :
  gate_runs w us next req
    (serve (CheckLoggedIn w (injector ss us) next) req)
    (serve (ConfirmPassword w (injector ss us) next) req).
Proof.
  pose proof quiet_app as QA.
  unfold serve, CheckLoggedIn, ConfirmPassword, injector, MustInvoke,
    util_ExtractToken, util_LoadPublicKey,
    userSession_GetUser, userService_CheckEmailConfirmation,
    ctx_JSON, ctx_SetRequest, call, ctx_Request, emit, panic,
    mbind, mret, Echo_bind, Echo_ret.
  gate_keep.
  destruct (decide _) as [_|_]; gate_keep.
  { apply both_reject; reflexivity. }
  destruct (ExtractToken w req) as [tokenString|e0]; gate_keep.
  2:{ apply both_reject; reflexivity. }
  destruct (LoadPublicKey w (SecretKeyPath w)) as [publicKey|e1]; gate_keep.
  2:{ apply both_reject; reflexivity. }
  destruct (jwt_Parse_returns w tokenString (keyFunc publicKey))
    as ([tok err] & evs & Q & V & E).
  rewrite !E. gate_keep.
  destruct err as [e2|].
  { destruct tok; gate_keep; apply both_reject; rewrite ?QA, ?Q; reflexivity. }
  cbn [fst snd] in V. destruct (V eq_refl) as (t & -> & Vt).
  rewrite Vt. gate_keep.
  destruct (GetUser ss (Ctx req) tokenString) as [user|e3]; gate_keep.
  2:{ destruct (errors_Is e3 ErrSessionNotFound); gate_keep;
        apply both_reject; rewrite ?QA, ?Q; reflexivity. }
  destruct (CheckEmailConfirmation us (Ctx req) (Email user)) as [e4|] eqn:C;
    gate_keep;
    rewrite <- ?(app_assoc _ [EvSetRequest _]);
    rewrite <- ?(app_assoc _ [EvCheckEmailConfirmation _]).
  - eapply only_CheckLoggedIn_rejects; [|exact C|reflexivity|reflexivity].
    rewrite ?QA, ?Q; reflexivity.
  - apply both_admit; [|exact C]. rewrite ?QA, ?Q; reflexivity.
Qed.

(* ===================================================================== *)
(** ** The gates' rejections *)
(* ===================================================================== *)

Section ParseFailure.

Variable w : World.
Variables (ss : UserSessionService) (us : UserService).
Variable next : HandlerFunc.
Variable req : Request.

Local Notation "'run_CheckLoggedIn'" :=
  (serve (CheckLoggedIn w (injector ss us) next) req).
Local Notation "'run_ConfirmPassword'" :=
  (serve (ConfirmPassword w (injector ss us) next) req).

(** The gates answer 401 "Invalid Session" whenever [jwt.Parse] returns an
    error. *)
Lemma parse_failure_is_invalid_session (tokenString : string) (publicKey : PublicKey) :
  Header_Get (Header req) "Authorization" <> EmptyString ->
  ExtractToken w req = Val tokenString ->
  LoadPublicKey w (SecretKeyPath w) = Val publicKey ->
  parse_fails w tokenString publicKey ->
  rejects req run_CheckLoggedIn 401 "Invalid Session" /\
  rejects req run_ConfirmPassword 401 "Invalid Session".
Proof.
  intros H X K F.
  destruct (jwt_Parse_returns w tokenString (keyFunc publicKey))
    as (r & evs & Q & _ & E).
  destruct (F {| st_request := req; st_log := [] |}) as (tok & err & Fs).
  rewrite E in Fs. cbn [fst] in Fs. injection Fs as ->.
  assert (P : quiet ([EvExtractToken; EvLoadPublicKey (SecretKeyPath w)] ++ evs) = true).
  { rewrite quiet_app, Q. reflexivity. }
  split.
  - eapply (rejects_intro _ _ ([EvExtractToken; EvLoadPublicKey _] ++ evs));
      [unfold serve, CheckLoggedIn, injector, MustInvoke,
         util_ExtractToken, util_LoadPublicKey, ctx_JSON, ctx_Request, emit,
         mbind, mret, Echo_bind, Echo_ret;
       gate_keep; destruct (decide _) as [?|_]; [done|]; gate_keep;
       rewrite X; gate_keep; rewrite K; gate_keep; rewrite E; gate_keep;
       destruct tok; reflexivity
      |exact P|reflexivity..].
  - eapply (rejects_intro _ _ ([EvExtractToken; EvLoadPublicKey _] ++ evs));
      [unfold serve, ConfirmPassword, injector, MustInvoke,
         util_ExtractToken, util_LoadPublicKey, ctx_JSON, ctx_Request, emit,
         mbind, mret, Echo_bind, Echo_ret;
       gate_keep; destruct (decide _) as [?|_]; [done|]; gate_keep;
       rewrite X; gate_keep; rewrite K; gate_keep; rewrite E; gate_keep;
       destruct tok; reflexivity
      |exact P|reflexivity..].
Qed.

End ParseFailure.


Section Claims.

Variable w : World.
Variables (ss : UserSessionService) (us : UserService).
Variable next : HandlerFunc.
Variable req : Request.

Local Notation "'run_CheckLoggedIn'" :=
  (serve (CheckLoggedIn w (injector ss us) next) req).
Local Notation "'run_ConfirmPassword'" :=
  (serve (ConfirmPassword w (injector ss us) next) req).

(** C7: when the Authorization header is empty, both gates answer 401
    "Access Denied"; the response is the only call of the run, so no token
    is extracted, no key loaded, no store consulted, and the next handler
    is not called. *)
Theorem no_header_access_denied :
  Header_Get (Header req) "Authorization" = EmptyString ->
  rejects req run_CheckLoggedIn 401 "Access Denied" /\
  rejects req run_ConfirmPassword 401 "Access Denied" /\
  exists body,
    st_log run_CheckLoggedIn.2 = [EvJSON 401 body] /\
    st_log run_ConfirmPassword.2 = [EvJSON 401 body].
Proof.
  intros H.
  pose proof (CheckLoggedIn_no_header w ss us next req H) as A.
  pose proof (ConfirmPassword_no_header w ss us next req H) as B.
  split; [|split].
  - eapply (rejects_intro _ _ []); [exact A|reflexivity..].
  - eapply (rejects_intro _ _ []); [exact B|reflexivity..].
  - eexists. rewrite A, B. split; reflexivity.
Qed.

(** C8: when the public key cannot be loaded, both gates answer 500
    "Internal Server Error", a status of the 5xx class; the run ends with
    that response right after the failed load, and the next handler is not
    called. *)
Theorem key_load_failure_is_500 (tokenString : string) (err : error) :
  Header_Get (Header req) "Authorization" <> EmptyString ->
  ExtractToken w req = Val tokenString ->
  LoadPublicKey w (SecretKeyPath w) = Fail err ->
  is_5xx 500 = true /\
  rejects req run_CheckLoggedIn 500 "Internal Server Error" /\
  rejects req run_ConfirmPassword 500 "Internal Server Error" /\
  exists ba bb,
    st_log run_CheckLoggedIn.2 =
      [EvExtractToken; EvLoadPublicKey (SecretKeyPath w); EvJSON 500 ba] /\
    st_log run_ConfirmPassword.2 =
      [EvExtractToken; EvLoadPublicKey (SecretKeyPath w); EvJSON 500 bb].
Proof.
  intros H X K.
  pose proof (CheckLoggedIn_key_failure w ss us next req tokenString H X err K) as A.
  pose proof (ConfirmPassword_key_failure w ss us next req tokenString H X err K) as B.
  split; [reflexivity|]. split; [|split].
  - eapply (rejects_intro _ _ [_; _]); [exact A|reflexivity..].
  - eapply (rejects_intro _ _ [_; _]); [exact B|reflexivity..].
  - do 2 eexists. rewrite A, B. split; reflexivity.
Qed.

(** C3: a token whose signing method is not of the ECDSA family is refused
    by the key function: [jwt.Parse] returns the validation error wrapping
    [ErrorUnexpectedMethod] right after calling it, whatever the claims say
    and whether or not the signature would verify; both gates then answer
    401 "Invalid Session" and the next handler is not called. *)
Theorem unexpected_method_is_rejected (tokenString : string)
    (publicKey : PublicKey) (token : JwtToken) :
  Header_Get (Header req) "Authorization" <> EmptyString ->
  ExtractToken w req = Val tokenString ->
  LoadPublicKey w (SecretKeyPath w) = Val publicKey ->
  ParseUnverified w tokenString = Val token ->
  is_ECDSA (Method token) = false ->
  (forall s,
     jwt_Parse w tokenString (keyFunc publicKey) s =
       (Ret (Some token,
             Some (ValidationError ErrorUnexpectedMethod ValidationErrorUnverifiable)),
        {| st_request := st_request s;
           st_log := st_log s ++
             [EvParseUnverified tokenString; EvKeyfunc (Method token)] |})) /\
  rejects req run_CheckLoggedIn 401 "Invalid Session" /\
  rejects req run_ConfirmPassword 401 "Invalid Session".
Proof.
  intros H X K D M. split; [|split].
  - intros s. apply jwt_Parse_unexpected_method; assumption.
  - eapply (rejects_intro _ _ (up_to_keyfunc w tokenString token)).
    + exact (CheckLoggedIn_unexpected_method w ss us next req tokenString
               H X publicKey K token D M).
    + reflexivity.
    + reflexivity.
    + reflexivity.
  - eapply (rejects_intro _ _ (up_to_keyfunc w tokenString token)).
    + exact (ConfirmPassword_unexpected_method w ss us next req tokenString
               H X publicKey K token D M).
    + reflexivity.
    + reflexivity.
    + reflexivity.
Qed.

(** C1 (amended): when the session lookup fails with an error other than
    [ErrSessionNotFound], an unreachable store or a timeout included, both
    gates answer 401 "Unauthorized Access" and the next handler is not
    called. *)
Theorem lookup_failure_is_401 (tokenString : string) (publicKey : PublicKey)
    (token : JwtToken) (err : error) :
  verified w req tokenString publicKey token ->
  GetUser ss (Ctx req) tokenString = Fail err ->
  errors_Is err ErrSessionNotFound = false ->
  rejects req run_CheckLoggedIn 401 "Unauthorized Access" /\
  rejects req run_ConfirmPassword 401 "Unauthorized Access".
Proof.
  intros (H & X & K & D & M & C & V) G N. split.
  - eapply (rejects_intro _ _ (up_to_lookup w tokenString token)).
    + rewrite (CheckLoggedIn_lookup_failure w ss us next req tokenString
                 H X publicKey K token D M C V err G), N.
      reflexivity.
    + reflexivity.
    + reflexivity.
    + reflexivity.
  - eapply (rejects_intro _ _ (up_to_lookup w tokenString token)).
    + rewrite (ConfirmPassword_lookup_failure w ss us next req tokenString
                 H X publicKey K token D M C V err G), N.
      reflexivity.
    + reflexivity.
    + reflexivity.
    + reflexivity.
Qed.

(** C2 (amended): when the token verifies but the session lookup fails
    with [ErrSessionNotFound], both gates answer 403 "Session Expired" and
    the next handler is not called; a token that [jwt.Parse] refuses gets
    another response, 401 "Invalid Session". *)
Theorem session_not_found_is_403 (tokenString : string) (publicKey : PublicKey)
    (token : JwtToken) (err : error) :
  verified w req tokenString publicKey token ->
  GetUser ss (Ctx req) tokenString = Fail err ->
  errors_Is err ErrSessionNotFound = true ->
  rejects req run_CheckLoggedIn 403 "Session Expired" /\
  rejects req run_ConfirmPassword 403 "Session Expired" /\
  (forall (w' : World) (req' : Request) (ts' : string) (pk' : PublicKey),
     Header_Get (Header req') "Authorization" <> EmptyString ->
     ExtractToken w' req' = Val ts' ->
     LoadPublicKey w' (SecretKeyPath w') = Val pk' ->
     parse_fails w' ts' pk' ->
     rejects req' (serve (CheckLoggedIn w' (injector ss us) next) req')
       401 "Invalid Session" /\
     rejects req' (serve (ConfirmPassword w' (injector ss us) next) req')
       401 "Invalid Session").
Proof.
  intros (H & X & K & D & M & C & V) G N. split; [|split].
  - eapply (rejects_intro _ _ (up_to_lookup w tokenString token)).
    + rewrite (CheckLoggedIn_lookup_failure w ss us next req tokenString
                 H X publicKey K token D M C V err G), N.
      reflexivity.
    + reflexivity.
    + reflexivity.
    + reflexivity.
  - eapply (rejects_intro _ _ (up_to_lookup w tokenString token)).
    + rewrite (ConfirmPassword_lookup_failure w ss us next req tokenString
                 H X publicKey K token D M C V err G), N.
      reflexivity.
    + reflexivity.
    + reflexivity.
    + reflexivity.
  - intros w' req' ts' pk' H' X' K' F'.
    exact (parse_failure_is_invalid_session w' ss us next req' ts' pk' H' X' K' F').
Qed.

(** C6: the two gates run the same steps up to the e-mail confirmation
    check. Whenever [CheckLoggedIn] ends before that check, both gates
    reject, with the same status and the same title, after the same calls
    (the runs are equal once the free-text details are erased). Whenever
    the check is reached, [ConfirmPassword] admits the request after the
    calls [CheckLoggedIn] made before the check, and [CheckLoggedIn]
    differs by that check alone: it admits the same way when the check
    passes and answers 403 "Email Not Confirmed" when it fails. *)
Theorem gates_share_steps :
  (reached_check (st_log run_CheckLoggedIn.2) = false ->
     map erase_detail (st_log run_CheckLoggedIn.2) =
       map erase_detail (st_log run_ConfirmPassword.2) /\
     exists code title,
       rejects req run_CheckLoggedIn code title /\
       rejects req run_ConfirmPassword code title) /\
  (reached_check (st_log run_CheckLoggedIn.2) = true ->
     exists pre user,
       reached_check pre = false /\
       admits req next run_ConfirmPassword user /\
       st_log run_ConfirmPassword.2 =
         pre ++ [EvSetRequest (admitted_request req user);
                 EvNext (admitted_request req user)] /\
       ((CheckEmailConfirmation us (Ctx req) (Email user) = None /\
         admits req next run_CheckLoggedIn user /\
         st_log run_CheckLoggedIn.2 =
           pre ++ [EvCheckEmailConfirmation (Email user);
                   EvSetRequest (admitted_request req user);
                   EvNext (admitted_request req user)]) \/
        (CheckEmailConfirmation us (Ctx req) (Email user) <> None /\
         rejects req run_CheckLoggedIn 403 "Email Not Confirmed" /\
         exists body,
           st_log run_CheckLoggedIn.2 =
             pre ++ [EvCheckEmailConfirmation (Email user); EvJSON 403 body]))).
Proof.
  generalize (gates_classified w ss us next req).
  generalize run_CheckLoggedIn, run_ConfirmPassword.
  intros a b [pre code ba bb Q Sa Sb T|pre user err body Q C S T|pre user Q C];
    cbn [snd st_log].
  - split.
    + intros _. split.
      * rewrite !map_app. cbn [map erase_detail]. rewrite Sa, Sb, T. reflexivity.
      * exists code, (Title ba). split.
        -- eapply rejects_intro; [reflexivity|assumption..|reflexivity].
        -- eapply rejects_intro; [reflexivity|assumption..|auto].
    + rewrite reached_check_app, (quiet_not_reached _ Q). discriminate.
  - split.
    + rewrite reached_check_app, (quiet_not_reached _ Q). discriminate.
    + intros _. exists pre, user. split; [apply quiet_not_reached, Q|].
      split; [|split; [reflexivity|]].
      { apply admits_intro;
          [apply quiet_responses|apply quiet_attached|apply quiet_handler_calls];
          exact Q. }
      right. split; [congruence|]. split; [|eexists; reflexivity].
      exists body. cbn [snd st_log st_request].
      rewrite responses_app, handler_calls_app, attached_app.
      rewrite (quiet_responses _ Q), (quiet_handler_calls _ Q), (quiet_attached _ Q).
      repeat split; auto.
  - split.
    + rewrite reached_check_app, (quiet_not_reached _ Q). discriminate.
    + intros _. exists pre, user. split; [apply quiet_not_reached, Q|].
      split; [|split; [reflexivity|]].
      { apply admits_intro;
          [apply quiet_responses|apply quiet_attached|apply quiet_handler_calls];
          exact Q. }
      left. split; [exact C|]. split; [|reflexivity].
      change (pre ++ [EvCheckEmailConfirmation (Email user);
                      EvSetRequest (admitted_request req user);
                      EvNext (admitted_request req user)])
        with (pre ++ [EvCheckEmailConfirmation (Email user)] ++
                     [EvSetRequest (admitted_request req user);
                      EvNext (admitted_request req user)]).
      rewrite app_assoc. apply admits_intro.
      * rewrite responses_app, (quiet_responses _ Q). reflexivity.
      * rewrite attached_app, (quiet_attached _ Q). reflexivity.
      * rewrite handler_calls_app, (quiet_handler_calls _ Q). reflexivity.
Qed.

(** C9: a request that passes every check is admitted: the gate installs
    the request whose context carries the resolved session under [UserKey],
    and then calls the next handler on it, once, as its last call (for
    [CheckLoggedIn] the e-mail confirmation check must pass too). Every
    run either admits in this way or rejects, and a run that wrote a
    response never called the handler, installed nothing and left the
    request as it was. *)
Theorem admit_attaches_session_then_calls_next :
  (forall tokenString publicKey token user,
     verified w req tokenString publicKey token ->
     GetUser ss (Ctx req) tokenString = Val user ->
     admits req next run_ConfirmPassword user /\
     (CheckEmailConfirmation us (Ctx req) (Email user) = None ->
      admits req next run_CheckLoggedIn user)) /\
  ((exists user, admits req next run_CheckLoggedIn user) \/
   (exists code title, rejects req run_CheckLoggedIn code title)) /\
  ((exists user, admits req next run_ConfirmPassword user) \/
   (exists code title, rejects req run_ConfirmPassword code title)) /\
  (responses (st_log run_CheckLoggedIn.2) <> [] ->
     handler_calls (st_log run_CheckLoggedIn.2) = [] /\
     attached (st_log run_CheckLoggedIn.2) = [] /\
     st_request run_CheckLoggedIn.2 = req) /\
  (responses (st_log run_ConfirmPassword.2) <> [] ->
     handler_calls (st_log run_ConfirmPassword.2) = [] /\
     attached (st_log run_ConfirmPassword.2) = [] /\
     st_request run_ConfirmPassword.2 = req).
Proof.
  split.
  { intros tokenString publicKey token user (H & X & K & D & M & C & V) G. split.
    - rewrite (ConfirmPassword_admits w ss us next req tokenString
                 H X publicKey K token D M C V user G).
      apply admits_intro; reflexivity.
    - intros E.
      rewrite (CheckLoggedIn_admits w ss us next req tokenString
                 H X publicKey K token D M C V user G E).
      apply admits_intro; reflexivity. }
  generalize (gates_classified w ss us next req).
  generalize run_CheckLoggedIn, run_ConfirmPassword.
  intros a b [pre code ba bb Q Sa Sb T|pre user err body Q C S T|pre user Q C].
  - assert (Ra : rejects req
                   (Ret (WriteJSON w code ba),
                    {| st_request := req; st_log := pre ++ [EvJSON code ba] |})
                   code (Title ba))
      by (eapply rejects_intro; [reflexivity|assumption..|reflexivity]).
    assert (Rb : rejects req
                   (Ret (WriteJSON w code bb),
                    {| st_request := req; st_log := pre ++ [EvJSON code bb] |})
                   code (Title bb))
      by (eapply rejects_intro; [reflexivity|assumption..|reflexivity]).
    split; [right; eauto|]. split; [right; eauto|].
    destruct Ra as (? & _ & _ & _ & ? & ? & ?), Rb as (? & _ & _ & _ & ? & ? & ?).
    split; intros _; auto.
  - assert (Ra : rejects req
                   (Ret (WriteJSON w StatusForbidden body),
                    {| st_request := req;
                       st_log := pre ++ [EvCheckEmailConfirmation (Email user);
                                         EvJSON StatusForbidden body] |})
                   403 "Email Not Confirmed").
    { exists body. cbn [snd st_log st_request].
      rewrite responses_app, handler_calls_app, attached_app.
      rewrite (quiet_responses _ Q), (quiet_handler_calls _ Q), (quiet_attached _ Q).
      repeat split; auto. }
    assert (Ab : admits req next
                   (Ret (next (admitted_request req user)),
                    {| st_request := admitted_request req user;
                       st_log := pre ++ [EvSetRequest (admitted_request req user);
                                         EvNext (admitted_request req user)] |})
                   user).
    { apply admits_intro;
        [apply quiet_responses|apply quiet_attached|apply quiet_handler_calls];
        exact Q. }
    split; [right; eauto|]. split; [left; eauto|].
    destruct Ra as (? & _ & _ & _ & ? & ? & ?).
    destruct Ab as (_ & _ & _ & Rb & _).
    split; [intros _; auto|]. intros N. destruct (N Rb).
  - assert (Ab : admits req next
                   (Ret (next (admitted_request req user)),
                    {| st_request := admitted_request req user;
                       st_log := pre ++ [EvSetRequest (admitted_request req user);
                                         EvNext (admitted_request req user)] |})
                   user).
    { apply admits_intro;
        [apply quiet_responses|apply quiet_attached|apply quiet_handler_calls];
        exact Q. }
    assert (Aa : admits req next
                   (Ret (next (admitted_request req user)),
                    {| st_request := admitted_request req user;
                       st_log := pre ++ [EvCheckEmailConfirmation (Email user);
                                         EvSetRequest (admitted_request req user);
                                         EvNext (admitted_request req user)] |})
                   user).
    { change (pre ++ [EvCheckEmailConfirmation (Email user);
                      EvSetRequest (admitted_request req user);
                      EvNext (admitted_request req user)])
        with (pre ++ [EvCheckEmailConfirmation (Email user)] ++
                     [EvSetRequest (admitted_request req user);
                      EvNext (admitted_request req user)]).
      rewrite app_assoc. apply admits_intro.
      - rewrite responses_app, (quiet_responses _ Q). reflexivity.
      - rewrite attached_app, (quiet_attached _ Q). reflexivity.
      - rewrite handler_calls_app, (quiet_handler_calls _ Q). reflexivity. }
    split; [left; eauto|]. split; [left; eauto|].
    destruct Aa as (_ & _ & _ & Ra & _), Ab as (_ & _ & _ & Rb & _).
    split; intros N; [destruct (N Ra)|destruct (N Rb)].
Qed.

(** Whatever error the e-mail confirmation check returns, [CheckLoggedIn]
    answers 403 "Email Not Confirmed": the error is not inspected. *)
Lemma status_failure_is_403 (tokenString : string) (publicKey : PublicKey)
    (token : JwtToken) (user : Session) (err : error) :
  verified w req tokenString publicKey token ->
  GetUser ss (Ctx req) tokenString = Val user ->
  CheckEmailConfirmation us (Ctx req) (Email user) = Some err ->
  rejects req run_CheckLoggedIn 403 "Email Not Confirmed".
Proof.
  intros (H & X & K & D & M & C & V) G E.
  pose proof (CheckLoggedIn_status_failure w ss us next req tokenString
                H X publicKey K token D M C V user G err E) as A.
  exists {| Status := StatusForbidden; Title := "Email Not Confirmed";
            Detail := "You need to confirm your email address before accessing this resource." |}.
  rewrite A. repeat split; reflexivity.
Qed.

End Claims.

(* ===================================================================== *)
(** ** The gates on the sample deployment *)
(* ===================================================================== *)

(** Settle [verified] on the sample deployment by evaluation. *)
Ltac sample_verified :=
  unfold verified; repeat split; try reflexivity;
  vm_compute; intros; discriminate.

Example errors_Is_sentinel :
  errors_Is ErrSessionNotFound ErrSessionNotFound = true.
Proof. reflexivity. Qed.

Example errors_Is_wrapped :
  errors_Is (ErrWrap "get session" ErrSessionNotFound) ErrSessionNotFound = true.
Proof. reflexivity. Qed.

Example errors_Is_other :
  errors_Is (ErrOther "context deadline exceeded") ErrSessionNotFound = false.
Proof. reflexivity. Qed.

Example Header_Get_absent :
  Header_Get (Header Sample.anonymous) "Authorization" = EmptyString.
Proof. reflexivity. Qed.

Example Header_Get_present :
  Header_Get (Header (Sample.bearer "tok-alice")) "Authorization" = "tok-alice".
Proof. reflexivity. Qed.

Example unconfirmed_alice_is_refused :
  responses (st_log (Sample.logged_in Sample.users_unconfirmed "tok-alice").2) =
    [(403, {| Status := 403; Title := "Email Not Confirmed";
              Detail := "You need to confirm your email address before accessing this resource." |})].
Proof. reflexivity. Qed.

Example confirmed_alice_is_admitted :
  (Sample.logged_in Sample.users_confirmed "tok-alice").1 = Ret None /\
  handler_calls (st_log (Sample.logged_in Sample.users_confirmed "tok-alice").2) =
    [admitted_request (Sample.bearer "tok-alice") Sample.alice] /\
  Value (Ctx (st_request (Sample.logged_in Sample.users_confirmed "tok-alice").2))
    UserKey = Some (VSession Sample.alice).
Proof. repeat split; reflexivity. Qed.

Example password_gate_skips_the_check :
  handler_calls (st_log (Sample.password_gate Sample.users_unconfirmed "tok-alice").2) =
    [admitted_request (Sample.bearer "tok-alice") Sample.alice].
Proof. reflexivity. Qed.

Lemma no_header_access_denied_witness :
  Header_Get (Header Sample.anonymous) "Authorization" = EmptyString /\
  rejects Sample.anonymous
    (serve (CheckLoggedIn Sample.world
              (injector Sample.sessions Sample.users_confirmed) Sample.handler)
       Sample.anonymous)
    401 "Access Denied".
Proof.
  split; [reflexivity|].
  apply (no_header_access_denied Sample.world Sample.sessions
           Sample.users_confirmed Sample.handler Sample.anonymous).
  reflexivity.
Defined.

Lemma key_load_failure_is_500_witness :
  Header_Get (Header (Sample.bearer "tok-alice")) "Authorization" <> EmptyString /\
  ExtractToken Sample.world_no_key (Sample.bearer "tok-alice") = Val "tok-alice" /\
  LoadPublicKey Sample.world_no_key (SecretKeyPath Sample.world_no_key) =
    Fail (ErrOther "open keys/public.pem: no such file or directory") /\
  rejects (Sample.bearer "tok-alice")
    (serve (CheckLoggedIn Sample.world_no_key
              (injector Sample.sessions Sample.users_confirmed) Sample.handler)
       (Sample.bearer "tok-alice"))
    500 "Internal Server Error".
Proof.
  split; [vm_compute; intros; discriminate|].
  split; [reflexivity|]. split; [reflexivity|].
  apply (key_load_failure_is_500 Sample.world_no_key Sample.sessions
           Sample.users_confirmed Sample.handler (Sample.bearer "tok-alice")
           "tok-alice"
           (ErrOther "open keys/public.pem: no such file or directory")).
  - vm_compute; intros; discriminate.
  - reflexivity.
  - reflexivity.
Defined.

Lemma unexpected_method_is_rejected_witness :
  Header_Get (Header (Sample.bearer "tok-hmac")) "Authorization" <> EmptyString /\
  ExtractToken Sample.world (Sample.bearer "tok-hmac") = Val "tok-hmac" /\
  LoadPublicKey Sample.world (SecretKeyPath Sample.world) = Val Sample.key /\
  ParseUnverified Sample.world "tok-hmac" = Val (Sample.hs256 "tok-hmac") /\
  is_ECDSA (Method (Sample.hs256 "tok-hmac")) = false /\
  rejects (Sample.bearer "tok-hmac")
    (Sample.logged_in Sample.users_confirmed "tok-hmac") 401 "Invalid Session".
Proof.
  split; [vm_compute; intros; discriminate|].
  do 4 (split; [reflexivity|]).
  apply (unexpected_method_is_rejected Sample.world Sample.sessions
           Sample.users_confirmed Sample.handler (Sample.bearer "tok-hmac")
           "tok-hmac" Sample.key (Sample.hs256 "tok-hmac")).
  - vm_compute; intros; discriminate.
  - reflexivity.
  - reflexivity.
  - reflexivity.
  - reflexivity.
Defined.

Lemma lookup_failure_is_401_witness :
  verified Sample.world (Sample.bearer "tok-down") "tok-down" Sample.key
    (Sample.es256 "tok-down") /\
  GetUser Sample.sessions (Ctx (Sample.bearer "tok-down")) "tok-down" =
    Fail (ErrOther "dial tcp 127.0.0.1:6379: connect: connection refused") /\
  errors_Is (ErrOther "dial tcp 127.0.0.1:6379: connect: connection refused")
    ErrSessionNotFound = false /\
  rejects (Sample.bearer "tok-down")
    (Sample.logged_in Sample.users_confirmed "tok-down") 401 "Unauthorized Access".
Proof.
  split; [sample_verified|]. split; [reflexivity|]. split; [reflexivity|].
  apply (lookup_failure_is_401 Sample.world Sample.sessions
           Sample.users_confirmed Sample.handler (Sample.bearer "tok-down")
           "tok-down" Sample.key (Sample.es256 "tok-down")
           (ErrOther "dial tcp 127.0.0.1:6379: connect: connection refused")).
  - sample_verified.
  - reflexivity.
  - reflexivity.
Defined.

Lemma session_not_found_is_403_witness :
  verified Sample.world (Sample.bearer "tok-gone") "tok-gone" Sample.key
    (Sample.es256 "tok-gone") /\
  GetUser Sample.sessions (Ctx (Sample.bearer "tok-gone")) "tok-gone" =
    Fail ErrSessionNotFound /\
  errors_Is ErrSessionNotFound ErrSessionNotFound = true /\
  rejects (Sample.bearer "tok-gone")
    (Sample.logged_in Sample.users_confirmed "tok-gone") 403 "Session Expired".
Proof.
  split; [sample_verified|]. split; [reflexivity|]. split; [reflexivity|].
  apply (session_not_found_is_403 Sample.world Sample.sessions
           Sample.users_confirmed Sample.handler (Sample.bearer "tok-gone")
           "tok-gone" Sample.key (Sample.es256 "tok-gone") ErrSessionNotFound).
  - sample_verified.
  - reflexivity.
  - reflexivity.
Defined.

Lemma gates_share_steps_witness :
  reached_check
    (st_log (Sample.logged_in Sample.users_unconfirmed "tok-gone").2) = false /\
  map erase_detail
    (st_log (Sample.logged_in Sample.users_unconfirmed "tok-gone").2) =
  map erase_detail
    (st_log (Sample.password_gate Sample.users_unconfirmed "tok-gone").2).
Proof.
  split; [reflexivity|].
  apply (gates_share_steps Sample.world Sample.sessions
           Sample.users_unconfirmed Sample.handler (Sample.bearer "tok-gone")).
  reflexivity.
Defined.

Lemma admit_attaches_session_then_calls_next_witness :
  verified Sample.world (Sample.bearer "tok-alice") "tok-alice" Sample.key
    (Sample.es256 "tok-alice") /\
  GetUser Sample.sessions (Ctx (Sample.bearer "tok-alice")) "tok-alice" =
    Val Sample.alice /\
  CheckEmailConfirmation Sample.users_confirmed (Ctx (Sample.bearer "tok-alice"))
    (Email Sample.alice) = None /\
  admits (Sample.bearer "tok-alice") Sample.handler
    (Sample.logged_in Sample.users_confirmed "tok-alice") Sample.alice.
Proof.
  split; [sample_verified|]. split; [reflexivity|]. split; [reflexivity|].
  apply (proj1 (admit_attaches_session_then_calls_next Sample.world
                  Sample.sessions Sample.users_confirmed Sample.handler
                  (Sample.bearer "tok-alice"))
           "tok-alice" Sample.key (Sample.es256 "tok-alice") Sample.alice).
  - sample_verified.
  - reflexivity.
  - reflexivity.
Defined.

(** C1, as stated, fails: with the session store unreachable the lookup
    fails with a connection error, and the gate answers 401, not a status
    of the 5xx class. *)
Lemma store_outage_answers_401 :
  verified Sample.world (Sample.bearer "tok-down") "tok-down" Sample.key
    (Sample.es256 "tok-down") /\
  GetUser Sample.sessions (Ctx (Sample.bearer "tok-down")) "tok-down" =
    Fail (ErrOther "dial tcp 127.0.0.1:6379: connect: connection refused") /\
  responses (st_log (Sample.logged_in Sample.users_confirmed "tok-down").2) =
    [(401, {| Status := 401; Title := "Unauthorized Access";
              Detail := "Your session is invalid. Please log in again." |})] /\
  ~ (exists code title,
       rejects (Sample.bearer "tok-down")
         (Sample.logged_in Sample.users_confirmed "tok-down") code title /\
       is_5xx code = true).
Proof.
  split; [sample_verified|]. split; [reflexivity|]. split; [reflexivity|].
  intros (code & title & (body & R & _) & F).
  vm_compute in R. injection R as <- _. discriminate F.
Qed.

(** C2, as stated, fails: for a verified token whose session is gone the
    gate answers 403 "Session Expired", not 401. *)
Lemma session_gone_answers_403 :
  verified Sample.world (Sample.bearer "tok-gone") "tok-gone" Sample.key
    (Sample.es256 "tok-gone") /\
  GetUser Sample.sessions (Ctx (Sample.bearer "tok-gone")) "tok-gone" =
    Fail ErrSessionNotFound /\
  responses (st_log (Sample.logged_in Sample.users_confirmed "tok-gone").2) =
    [(403, {| Status := 403; Title := "Session Expired";
              Detail := "Your session has expired. Please log in again to continue." |})] /\
  ~ rejects (Sample.bearer "tok-gone")
      (Sample.logged_in Sample.users_confirmed "tok-gone") 401 "Session Expired".
Proof.
  split; [sample_verified|]. split; [reflexivity|]. split; [reflexivity|].
  intros (body & R & _).
  vm_compute in R. discriminate R.
Qed.

(** C5: with the user database unreachable, the e-mail confirmation check
    of a request that holds a live session fails with a connection error,
    which is not [ErrEmailNotConfirmed]; [CheckLoggedIn] answers 403
    "Email Not Confirmed" all the same, not a status of the 5xx class. *)
Theorem status_check_outage_answers_403 :
  verified Sample.world (Sample.bearer "tok-alice") "tok-alice" Sample.key
    (Sample.es256 "tok-alice") /\
  GetUser Sample.sessions (Ctx (Sample.bearer "tok-alice")) "tok-alice" =
    Val Sample.alice /\
  CheckEmailConfirmation Sample.users_down (Ctx (Sample.bearer "tok-alice"))
    (Email Sample.alice) =
    Some (ErrOther "dial tcp 127.0.0.1:3306: connect: connection refused") /\
  errors_Is (ErrOther "dial tcp 127.0.0.1:3306: connect: connection refused")
    ErrEmailNotConfirmed = false /\
  responses (st_log (Sample.logged_in Sample.users_down "tok-alice").2) =
    [(403, {| Status := 403; Title := "Email Not Confirmed";
              Detail := "You need to confirm your email address before accessing this resource." |})] /\
  is_5xx 403 = false.
Proof.
  split; [sample_verified|]. repeat split; reflexivity.
Qed.

(* ===================================================================== *)
(** ** Image upload *)
(* ===================================================================== *)

(** Past the decoding, [UploadImage] depends on the decoded answer alone. *)
Lemma UploadImage_answered (e : CloudFlare.Env) (image : CloudFlare.FileHeader)
    (r : CloudFlare.CloudflareResponse) :
  CloudFlare.answered e image r ->
  CloudFlare.UploadImage e image =
    if negb (CloudFlare.Success r)
    then Ret (EmptyString, Some CloudFlare.ErrCloudflareFailed)
    else match CloudFlare.Variants (CloudFlare.Result r) !! 0%nat with
         | None => Panic "runtime error: index out of range [0] with length 0"
         | Some imageURL => Ret (imageURL, None)
         end.
Proof.
  intros (file & req & resp & respBody & O & F & C & W & N & D & B & S & U).
  unfold CloudFlare.UploadImage.
  rewrite O, F, C, W, N, D, B, S, U. reflexivity.
Qed.

(** C10: [UploadImage] indexes [Variants] at 0 without checking its
    length. When every call succeeds and the decoded answer reports
    success with an empty [Variants], the access is out of range: the call
    panics and returns no [(url, err)] pair at all. *)
Theorem UploadImage_empty_variants_panics (e : CloudFlare.Env)
    (image : CloudFlare.FileHeader) (r : CloudFlare.CloudflareResponse) :
  CloudFlare.answered e image r ->
  CloudFlare.Success r = true ->
  CloudFlare.Variants (CloudFlare.Result r) = [] ->
  CloudFlare.UploadImage e image =
    Panic "runtime error: index out of range [0] with length 0" /\
  forall v, CloudFlare.UploadImage e image <> Ret v.
Proof.
  intros A S V. rewrite (UploadImage_answered e image r A), S, V.
  split; [reflexivity|]. intros v H. discriminate H.
Qed.

Lemma UploadImage_empty_variants_panics_witness :
  CloudFlare.answered Sample.upload_env Sample.picture Sample.no_variants /\
  CloudFlare.Success Sample.no_variants = true /\
  CloudFlare.Variants (CloudFlare.Result Sample.no_variants) = [] /\
  CloudFlare.UploadImage Sample.upload_env Sample.picture =
    Panic "runtime error: index out of range [0] with length 0".
Proof.
  assert (A : CloudFlare.answered Sample.upload_env Sample.picture Sample.no_variants).
  { do 4 eexists. repeat split; reflexivity. }
  split; [exact A|]. split; [reflexivity|]. split; [reflexivity|].
  apply (UploadImage_empty_variants_panics Sample.upload_env Sample.picture
           Sample.no_variants A); reflexivity.
Defined.

(* ===================================================================== *)
(** ** The token codec *)
(* ===================================================================== *)

(** C4: for a key pair whose signatures verify, a token issued for subject
    [s] with validity [v] verifies, at any time strictly before its expiry,
    to [s]. *)
Theorem Verify_Issue_roundtrip (PrivateKey PublicKey Signature : Type)
    (sign : PrivateKey -> TokenCodec.Payload -> Signature)
    (check : PublicKey -> TokenCodec.Payload -> Signature -> bool)
    (sk : PrivateKey) (pk : PublicKey) (s : UUID) (v issued now : Z) :
  (forall p, check pk p (sign sk p) = true) ->
  now < TokenCodec.exp (TokenCodec.payload (TokenCodec.Issue sign sk issued s v)) ->
  TokenCodec.exp (TokenCodec.payload (TokenCodec.Issue sign sk issued s v)) = issued + v /\
  TokenCodec.Verify check pk now (TokenCodec.Issue sign sk issued s v) = inr s.
Proof.
  intros K L. split; [reflexivity|].
  unfold TokenCodec.Verify, TokenCodec.Issue in *.
  cbn [TokenCodec.alg TokenCodec.payload TokenCodec.signature TokenCodec.exp
       TokenCodec.sub TokenCodec.is_EC negb] in *.
  rewrite K. cbn [negb].
  destruct (Z.leb_spec (issued + v) now) as [G|_]; [lia|reflexivity].
Qed.

Lemma Verify_Issue_roundtrip_witness :
  (forall p, TokenCodec.toy_check 5 p (TokenCodec.toy_sign 5 p) = true) /\
  2000 < TokenCodec.exp
           (TokenCodec.payload (TokenCodec.Issue TokenCodec.toy_sign 5 1000 42 3600)) /\
  TokenCodec.Verify TokenCodec.toy_check 5 2000
    (TokenCodec.Issue TokenCodec.toy_sign 5 1000 42 3600) = inr 42.
Proof.
  assert (K : forall p, TokenCodec.toy_check 5 p (TokenCodec.toy_sign 5 p) = true).
  { intros p. unfold TokenCodec.toy_check, TokenCodec.toy_sign. apply Z.eqb_refl. }
  split; [exact K|]. split; [reflexivity|].
  apply (Verify_Issue_roundtrip Z Z Z TokenCodec.toy_sign TokenCodec.toy_check
           5 5 42 3600 1000 2000 K).
  reflexivity.
Defined.

(* ===================================================================== *)
(** ** The paths through the gates *)
(* ===================================================================== *)

(** A signature failure sets a bit whatever the claims validation left. *)
Lemma lor_SignatureInvalid (bits : Z) :
  (Z.lor bits ValidationErrorSignatureInvalid =? 0) = false.
Proof.
  apply Z.eqb_neq. intros H. apply Z.lor_eq_0_iff in H as [_ H].
  discriminate H.
Qed.

Lemma jwt_only_quiet (evs : list Event) : jwt_only evs = true -> quiet evs = true.
Proof.
  unfold jwt_only, quiet.
  induction evs as [|e evs IH]; [reflexivity|].
  cbn [forallb]. intros H. apply andb_prop in H as [He Hl].
  rewrite (IH Hl). destruct e; try discriminate; reflexivity.
Qed.

(** [jwt.Parse] under the gates' key function: either the token decodes,
    is of the ECDSA family, its claims set no bit and its signature
    verifies, and the token comes back marked valid with a nil error; or an
    error comes back. Only the library's own calls are made. *)
Lemma jwt_Parse_cases (w : World) (tokenString : string) (publicKey : PublicKey) :
  (exists token,
     ParseUnverified w tokenString = Val token /\
     is_ECDSA (Method token) = true /\
     claims_clean w token /\
     MethodVerify w token publicKey = None /\
     forall s, jwt_Parse w tokenString (keyFunc publicKey) s =
       (Ret (Some (set_Valid token true), None),
        {| st_request := st_request s;
           st_log := st_log s ++
             [EvParseUnverified tokenString; EvKeyfunc (Method token);
              EvClaimsValid; EvMethodVerify] |})) \/
  (exists tok err evs,
     jwt_only evs = true /\
     forall s, jwt_Parse w tokenString (keyFunc publicKey) s =
       (Ret (tok, Some err),
        {| st_request := st_request s; st_log := st_log s ++ evs |})).
Proof.
  assert (F : forall bits : Z, bits <> 0 -> (bits =? 0) = false)
    by (intros bits; apply Z.eqb_neq).
  unfold jwt_Parse, keyFunc, emit, mbind, mret, Echo_bind, Echo_ret.
  destruct (ParseUnverified w tokenString) as [token|e0].
  2:{ right. exists None, e0, [EvParseUnverified tokenString].
      split; [reflexivity|]. intros s. reflexivity. }
  destruct (is_ECDSA (Method token)) eqn:M.
  2:{ right. do 2 eexists.
      exists [EvParseUnverified tokenString; EvKeyfunc (Method token)].
      split; [reflexivity|]. intros s. cbn. rewrite <- app_assoc. reflexivity. }
  destruct (MethodVerify w token publicKey) as [e2|] eqn:V.
  { right. do 2 eexists.
    exists [EvParseUnverified tokenString; EvKeyfunc (Method token);
            EvClaimsValid; EvMethodVerify].
    split; [reflexivity|]. intros s. cbn [st_request st_log vErr_Errors].
    rewrite lor_SignatureInvalid, <- !app_assoc. reflexivity. }
  destruct (ClaimsValid w token) as [e1|] eqn:C.
  2:{ left. exists token. split; [reflexivity|]. split; [exact M|].
      split; [unfold claims_clean; rewrite C; exact I|]. split; [exact V|].
      intros s. cbn. rewrite <- !app_assoc. reflexivity. }
  destruct e1;
    try (right; do 2 eexists;
         exists [EvParseUnverified tokenString; EvKeyfunc (Method token);
                 EvClaimsValid; EvMethodVerify];
         split; [reflexivity|]; intros s; cbn; rewrite <- !app_assoc;
         reflexivity).
  - destruct (Z.eq_dec Errors 0) as [->|N].
    + left. exists token. split; [reflexivity|]. split; [exact M|].
      split; [unfold claims_clean; rewrite C; reflexivity|]. split; [exact V|].
      intros s. cbn. rewrite <- !app_assoc. reflexivity.
    + right. do 2 eexists.
      exists [EvParseUnverified tokenString; EvKeyfunc (Method token);
              EvClaimsValid; EvMethodVerify].
      split; [reflexivity|]. intros s. cbn [st_request st_log vErr_Errors].
      rewrite (F _ N), <- !app_assoc. reflexivity.
  - destruct (Z.eq_dec Errors 0) as [->|N].
    + left. exists token. split; [reflexivity|]. split; [exact M|].
      split; [unfold claims_clean; rewrite C; reflexivity|]. split; [exact V|].
      intros s. cbn. rewrite <- !app_assoc. reflexivity.
    + right. do 2 eexists.
      exists [EvParseUnverified tokenString; EvKeyfunc (Method token);
              EvClaimsValid; EvMethodVerify].
      split; [reflexivity|]. intros s. cbn [st_request st_log vErr_Errors].
      rewrite (F _ N), <- !app_assoc. reflexivity.
Qed.

(** Every request takes one of the seven paths. *)
Lemma gates_paths (w : World) (ss : UserSessionService) (us : UserService)
    (next : HandlerFunc) (req : Request) :
  gate_path w ss us next req
    (serve (CheckLoggedIn w (injector ss us) next) req)
    (serve (ConfirmPassword w (injector ss us) next) req).
Proof.
  unfold serve, CheckLoggedIn, ConfirmPassword, injector, MustInvoke,
    util_ExtractToken, util_LoadPublicKey,
    userSession_GetUser, userService_CheckEmailConfirmation,
    ctx_JSON, ctx_SetRequest, call, ctx_Request, emit, panic,
    mbind, mret, Echo_bind, Echo_ret.
  gate_keep.
  destruct (decide _) as [H|H]; gate_keep.
  { apply path_no_header; [exact H|split; reflexivity..]. }
  destruct (ExtractToken w req) as [tokenString|e0] eqn:X; gate_keep.
  2:{ apply (path_no_token w ss us next req e0); [exact H|exact X|split; reflexivity..]. }
  destruct (LoadPublicKey w (SecretKeyPath w)) as [publicKey|e1] eqn:K; gate_keep.
  2:{ apply (path_no_key w ss us next req tokenString e1);
        [exact H|exact X|exact K|split; reflexivity..]. }
  destruct (jwt_Parse_cases w tokenString publicKey)
    as [(token & D & M & C & V & E)|(tok & err & evs & J & E)].
  2:{ rewrite !E. gate_keep.
      assert (F : parse_fails w tokenString publicKey).
      { intros s. exists tok, err. rewrite E. reflexivity. }
      destruct tok; gate_keep;
        apply (path_refused w ss us next req tokenString publicKey evs);
        auto; split; reflexivity. }
  rewrite !E. gate_keep. cbn [set_Valid Valid negb]. gate_keep.
  assert (A : accepted w req tokenString publicKey token).
  { repeat split; assumption. }
  destruct (GetUser ss (Ctx req) tokenString) as [user|e3] eqn:G; gate_keep.
  2:{ destruct (errors_Is e3 ErrSessionNotFound) eqn:N; gate_keep.
      - apply (path_no_session w ss us next req tokenString publicKey token e3
                 403 "Session Expired"); auto.
        + rewrite N. reflexivity.
        + split; reflexivity.
        + split; reflexivity.
      - apply (path_no_session w ss us next req tokenString publicKey token e3
                 401 "Unauthorized Access"); auto.
        + rewrite N. reflexivity.
        + split; reflexivity.
        + split; reflexivity. }
  destruct (CheckEmailConfirmation us (Ctx req) (Email user)) as [e4|] eqn:C';
    gate_keep.
  - apply (path_unconfirmed w ss us next req tokenString publicKey token user e4);
      auto. split; reflexivity.
  - apply (path_admitted w ss us next req tokenString publicKey token user); auto.
Qed.

(* ===================================================================== *)
(** ** What the gates never do *)
(* ===================================================================== *)

Lemma jwt_only_no_lookup (evs : list Event) (t : string) :
  jwt_only evs = true -> ~ In (EvGetUser t) evs.
Proof.
  intros J H. unfold jwt_only in J.
  rewrite forallb_forall in J. specialize (J _ H). discriminate J.
Qed.

Lemma jwt_only_no_check (evs : list Event) (m : string) :
  jwt_only evs = true -> ~ In (EvCheckEmailConfirmation m) evs.
Proof.
  intros J H. unfold jwt_only in J.
  rewrite forallb_forall in J. specialize (J _ H). discriminate J.
Qed.

(** A run that answers the client admits nobody. *)
Lemma rejected_not_admits (w : World) (req : Request) (next : HandlerFunc)
    (pre : list Event) (code : Z) (body : ProblemDetail) (user : Session) :
  ~ admits req next (rejected w req pre code body) user.
Proof.
  intros (_ & _ & _ & R & _). unfold rejected in R. cbn [snd st_log] in R.
  rewrite responses_app in R. apply app_eq_nil in R as [_ R]. discriminate R.
Qed.

(** The session an admitting run carries is the one it installed. *)
Lemma admitted_admits_inv (req : Request) (next : HandlerFunc)
    (pre : list Event) (user user' : Session) :
  attached pre = [] ->
  admits req next (admitted next req pre user') user -> user' = user.
Proof.
  intros P (_ & _ & _ & _ & A & _). unfold admitted in A. cbn [snd st_log] in A.
  rewrite attached_app, P in A. cbn in A.
  unfold admitted_request, WithContext, WithValue in A.
  injection A as A. exact A.
Qed.

Section Never.

Variable w : World.
Variables (ss : UserSessionService) (us : UserService).
Variable next : HandlerFunc.
Variable req : Request.

Local Notation "'run_CheckLoggedIn'" :=
  (serve (CheckLoggedIn w (injector ss us) next) req).
Local Notation "'run_ConfirmPassword'" :=
  (serve (ConfirmPassword w (injector ss us) next) req).

(** X1: nobody gets past a gate without every check having passed. If a
    run admits a session, then the header was there, the token was
    extracted, the key loaded, the token decoded to the ECDSA family with
    clean claims and a signature that verifies under that key, and the
    session is the one [GetUser] returned for that token; for
    [CheckLoggedIn], the e-mail confirmation check returned nil as well. *)
Theorem admission_requires_every_check (user : Session) :
  (admits req next run_ConfirmPassword user ->
   exists tokenString publicKey token,
     accepted w req tokenString publicKey token /\
     GetUser ss (Ctx req) tokenString = Val user) /\
  (admits req next run_CheckLoggedIn user ->
   exists tokenString publicKey token,
     accepted w req tokenString publicKey token /\
     GetUser ss (Ctx req) tokenString = Val user /\
     CheckEmailConfirmation us (Ctx req) (Email user) = None).
Proof.
  generalize (gates_paths w ss us next req).
  generalize run_CheckLoggedIn, run_ConfirmPassword.
  intros a b [ba bb H Pa Pb|err ba bb H X Pa Pb|ts err ba bb H X K Pa Pb
             |ts pk evs ba bb H X K F J Pa Pb
             |ts pk tok err code title ba bb A G T Pa Pb
             |ts pk tok user' err body A G C Pb
             |ts pk tok user' A G C];
    (split; intros Ad);
    try (exfalso; exact (rejected_not_admits _ _ _ _ _ _ _ Ad)).
  - apply admitted_admits_inv in Ad as <-; [|reflexivity]. eauto.
  - apply admitted_admits_inv in Ad as <-; [|reflexivity]. eauto.
  - apply admitted_admits_inv in Ad as <-; [|reflexivity]. eauto 6.
Qed.

(** X2: the session service is consulted only for a token [jwt.Parse] has
    accepted, and the user service only for a session the session service
    has returned, by [CheckLoggedIn] alone: [ConfirmPassword] never calls
    the e-mail confirmation check. *)
Theorem lookups_follow_verification :
  (forall t,
     In (EvGetUser t) (st_log run_CheckLoggedIn.2) \/
     In (EvGetUser t) (st_log run_ConfirmPassword.2) ->
     exists publicKey token, accepted w req t publicKey token) /\
  (forall m,
     In (EvCheckEmailConfirmation m) (st_log run_CheckLoggedIn.2) ->
     exists tokenString publicKey token user,
       accepted w req tokenString publicKey token /\
       GetUser ss (Ctx req) tokenString = Val user /\ m = Email user) /\
  (forall m, ~ In (EvCheckEmailConfirmation m) (st_log run_ConfirmPassword.2)).
Proof.
  generalize (gates_paths w ss us next req).
  generalize run_CheckLoggedIn, run_ConfirmPassword.
  intros a b [ba bb H Pa Pb|err ba bb H X Pa Pb|ts err ba bb H X K Pa Pb
             |ts pk evs ba bb H X K F J Pa Pb
             |ts pk tok err code title ba bb A G T Pa Pb
             |ts pk tok user' err body A G C Pb
             |ts pk tok user' A G C];
    unfold rejected, admitted, up_to_lookup, up_to_keyfunc;
    cbn [snd st_log app].
  1-3: (split; [|split]; [intros t [I|I]|intros m I|intros m I];
        cbn in I; intuition discriminate).
  - split; [|split].
    + intros t [I|I];
        (destruct I as [I|[I|I]]; [discriminate I|discriminate I|];
         apply in_app_or in I as [I|I];
         [destruct (jwt_only_no_lookup _ _ J I)
         |cbn in I; intuition discriminate]).
    + intros m I.
      destruct I as [I|[I|I]]; [discriminate I|discriminate I|].
      apply in_app_or in I as [I|I];
        [destruct (jwt_only_no_check _ _ J I)|cbn in I; intuition discriminate].
    + intros m I.
      destruct I as [I|[I|I]]; [discriminate I|discriminate I|].
      apply in_app_or in I as [I|I];
        [destruct (jwt_only_no_check _ _ J I)|cbn in I; intuition discriminate].
  - split; [|split].
    + intros t [I|I]; cbn in I;
        repeat (destruct I as [I|I]; try discriminate I);
        try contradiction; injection I as <-; eauto.
    + intros m I. cbn in I. intuition discriminate.
    + intros m I. cbn in I. intuition discriminate.
  - split; [|split].
    + intros t [I|I]; cbn in I;
        repeat (destruct I as [I|I]; try discriminate I);
        try contradiction; injection I as <-; eauto.
    + intros m I. cbn in I.
      repeat (destruct I as [I|I]; try discriminate I); try contradiction.
      injection I as <-. eauto 8.
    + intros m I. cbn in I. intuition discriminate.
  - split; [|split].
    + intros t [I|I]; cbn in I;
        repeat (destruct I as [I|I]; try discriminate I);
        try contradiction; injection I as <-; eauto.
    + intros m I. cbn in I.
      repeat (destruct I as [I|I]; try discriminate I); try contradiction.
      injection I as <-. eauto 8.
    + intros m I. cbn in I. intuition discriminate.
Qed.

End Never.

Section Refusals.

Variable w : World.
Variables (ss : UserSessionService) (us : UserService).
Variable next : HandlerFunc.
Variable req : Request.

Local Notation "'run_CheckLoggedIn'" :=
  (serve (CheckLoggedIn w (injector ss us) next) req).
Local Notation "'run_ConfirmPassword'" :=
  (serve (ConfirmPassword w (injector ss us) next) req).

(** X3: when the token cannot be extracted from a request that has an
    Authorization header, both gates answer 401 "Invalid Session" at once:
    the key is not loaded, nothing is parsed, no service is consulted and
    the next handler is not called. *)
Theorem extraction_failure_is_invalid_session (err : error) :
  Header_Get (Header req) "Authorization" <> EmptyString ->
  ExtractToken w req = Fail err ->
  rejects req run_CheckLoggedIn 401 "Invalid Session" /\
  rejects req run_ConfirmPassword 401 "Invalid Session" /\
  exists body,
    st_log run_CheckLoggedIn.2 = [EvExtractToken; EvJSON 401 body] /\
    st_log run_ConfirmPassword.2 = [EvExtractToken; EvJSON 401 body].
Proof.
  intros H X.
  assert (A : run_CheckLoggedIn.2 =
              {| st_request := req;
                 st_log := [EvExtractToken] ++
                   [EvJSON 401
                      {| Status := 401; Title := "Invalid Session";
                         Detail := "Your session is invalid or missing. Please log in again." |}] |}).
  { gate_start H. gate_step X. reflexivity. }
  assert (B : run_ConfirmPassword.2 =
              {| st_request := req;
                 st_log := [EvExtractToken] ++
                   [EvJSON 401
                      {| Status := 401; Title := "Invalid Session";
                         Detail := "Your session is invalid or missing. Please log in again." |}] |}).
  { gate_start H. gate_step X. reflexivity. }
  split; [|split].
  - eapply rejects_intro; [exact A|reflexivity..].
  - eapply rejects_intro; [exact B|reflexivity..].
  - eexists. rewrite A, B. split; reflexivity.
Qed.

(** X4: a token of the ECDSA family whose claims validation sets an error
    bit (an expired token, for one) or whose signature does not verify
    under the loaded key is refused: both gates answer 401 "Invalid
    Session", never consult the session service and never call the next
    handler. *)
Theorem failed_verification_is_rejected (tokenString : string)
    (publicKey : PublicKey) (token : JwtToken) :
  Header_Get (Header req) "Authorization" <> EmptyString ->
  ExtractToken w req = Val tokenString ->
  LoadPublicKey w (SecretKeyPath w) = Val publicKey ->
  ParseUnverified w tokenString = Val token ->
  is_ECDSA (Method token) = true ->
  ~ claims_clean w token \/ MethodVerify w token publicKey <> None ->
  rejects req run_CheckLoggedIn 401 "Invalid Session" /\
  rejects req run_ConfirmPassword 401 "Invalid Session" /\
  forall t, ~ In (EvGetUser t) (st_log run_CheckLoggedIn.2) /\
            ~ In (EvGetUser t) (st_log run_ConfirmPassword.2).
Proof.
  intros H X K D M Bad.
  assert (No : forall ts pk tok, ~ accepted w req ts pk tok).
  { intros ts pk tok (_ & X' & K' & D' & _ & C' & V').
    rewrite X in X'. injection X' as <-.
    rewrite K in K'. injection K' as <-.
    rewrite D in D'. injection D' as <-.
    destruct Bad as [N|N]; [exact (N C')|exact (N V')]. }
  generalize (gates_paths w ss us next req).
  generalize run_CheckLoggedIn, run_ConfirmPassword.
  intros a b [ba bb H' Pa Pb|err ba bb H' X' Pa Pb|ts err ba bb H' X' K' Pa Pb
             |ts pk evs ba bb H' X' K' F J [Sa Ta] [Sb Tb]
             |ts pk tok err code title ba bb A G T Pa Pb
             |ts pk tok user' err body A G C Pb
             |ts pk tok user' A G C];
    try (destruct (No _ _ _ A)).
  - destruct (H H').
  - rewrite X in X'. discriminate X'.
  - rewrite X in X'. injection X' as <-. rewrite K in K'. discriminate K'.
  - assert (Q : quiet ([EvExtractToken; EvLoadPublicKey (SecretKeyPath w)] ++ evs) = true).
    { rewrite quiet_app, (jwt_only_quiet _ J). reflexivity. }
    split; [|split].
    + eapply rejects_intro; [reflexivity|exact Q|exact Sa|exact Ta].
    + eapply rejects_intro; [reflexivity|exact Q|exact Sb|exact Tb].
    + intros t. unfold rejected. cbn [snd st_log].
      split; intros I;
        (apply in_app_or in I as [I|I]; [|cbn in I; intuition discriminate];
         destruct I as [I|[I|I]]; [discriminate I|discriminate I|];
         exact (jwt_only_no_lookup _ _ J I)).
Qed.

(** X5: the request the next handler receives is the request the gate
    received with one context value added: same headers, same value under
    every other context key, and under [UserKey] the session [GetUser]
    returned, in front of whatever was stored there before. *)
Theorem handler_request_extends_context (r : Request) :
  In r (handler_calls (st_log run_CheckLoggedIn.2)) \/
  In r (handler_calls (st_log run_ConfirmPassword.2)) ->
  Header r = Header req /\
  (forall k, k <> UserKey -> Value (Ctx r) k = Value (Ctx req) k) /\
  exists tokenString user,
    GetUser ss (Ctx req) tokenString = Val user /\
    Ctx r = (UserKey, VSession user) :: Ctx req /\
    Value (Ctx r) UserKey = Some (VSession user).
Proof.
  assert (E : forall user,
            Header (admitted_request req user) = Header req /\
            (forall k, k <> UserKey ->
               Value (Ctx (admitted_request req user)) k = Value (Ctx req) k) /\
            Ctx (admitted_request req user) = (UserKey, VSession user) :: Ctx req /\
            Value (Ctx (admitted_request req user)) UserKey = Some (VSession user)).
  { intros user. unfold admitted_request, WithContext, WithValue.
    cbn [Header Ctx Value]. split; [reflexivity|]. split; [|split].
    - intros k N. destruct (decide (UserKey = k)) as [<-|_]; [done|reflexivity].
    - reflexivity.
    - destruct (decide (UserKey = UserKey)) as [_|N]; [reflexivity|done]. }
  generalize (gates_paths w ss us next req).
  generalize run_CheckLoggedIn, run_ConfirmPassword.
  intros a b [ba bb H' Pa Pb|err ba bb H' X' Pa Pb|ts err ba bb H' X' K' Pa Pb
             |ts pk evs ba bb H' X' K' F J Pa Pb
             |ts pk tok err code title ba bb A G T Pa Pb
             |ts pk tok user err body A G C Pb
             |ts pk tok user A G C];
    unfold rejected, admitted, up_to_lookup, up_to_keyfunc;
    cbn [snd st_log]; rewrite ?handler_calls_app;
    rewrite ?(quiet_handler_calls _ (jwt_only_quiet _ J)).
  1-5: (cbn; intuition).
  - cbn. intros [[]|[<-|[]]].
    destruct (E user) as (E1 & E2 & E3 & E4). eauto 8.
  - cbn. intros [[<-|[]]|[<-|[]]];
      destruct (E user) as (E1 & E2 & E3 & E4); eauto 8.
Qed.

End Refusals.

(** X6: a gate whose service is not registered panics on every request
    before looking at it: nothing is answered, nothing is called, the
    request is untouched. [CheckLoggedIn] needs both services,
    [ConfirmPassword] the session service only, and runs the same with or
    without a user service. *)
Theorem missing_service_panics (w : World) (next : HandlerFunc) (req : Request)
    (ss : UserSessionService) (us : UserService) (other : option UserService) :
  (exists msg,
     serve (CheckLoggedIn w
              {| inj_UserSessionService := None; inj_UserService := other |} next) req =
       (Panic msg, {| st_request := req; st_log := [] |})) /\
  (exists msg,
     serve (CheckLoggedIn w
              {| inj_UserSessionService := Some ss; inj_UserService := None |} next) req =
       (Panic msg, {| st_request := req; st_log := [] |})) /\
  (exists msg,
     serve (ConfirmPassword w
              {| inj_UserSessionService := None; inj_UserService := other |} next) req =
       (Panic msg, {| st_request := req; st_log := [] |})) /\
  serve (ConfirmPassword w
           {| inj_UserSessionService := Some ss; inj_UserService := other |} next) req =
    serve (ConfirmPassword w (injector ss us) next) req.
Proof.
  repeat split; try (eexists; reflexivity).
Qed.

(* ===================================================================== *)
(** ** Image upload: results *)
(* ===================================================================== *)

(** Past the exchange, [UploadImage] depends on the response alone. *)
Lemma UploadImage_sent (e : CloudFlare.Env) (image : CloudFlare.FileHeader)
    (resp : CloudFlare.HttpResponse) :
  upload_sent e image resp ->
  CloudFlare.UploadImage e image =
    match CloudFlare.Body resp with
    | Fail _ => Ret (EmptyString, Some CloudFlare.ErrReadResponse)
    | Val respBody =>
      if negb (CloudFlare.StatusCode resp =? StatusOK)
      then Ret (EmptyString, Some CloudFlare.ErrUploadFailed)
      else match CloudFlare.Unmarshal e respBody with
           | Fail _ => Ret (EmptyString, Some CloudFlare.ErrDecodeJSON)
           | Val r =>
             if negb (CloudFlare.Success r)
             then Ret (EmptyString, Some CloudFlare.ErrCloudflareFailed)
             else match CloudFlare.Variants (CloudFlare.Result r) !! 0%nat with
                  | None => Panic "runtime error: index out of range [0] with length 0"
                  | Some imageURL => Ret (imageURL, None)
                  end
           end
    end.
Proof.
  intros (file & req & O & F & C & W & N & D).
  unfold CloudFlare.UploadImage, upload_request in *.
  rewrite O, F, C, W, N, D. reflexivity.
Qed.

(** X7: [UploadImage] returns a nil error exactly when every call
    succeeded, Cloudflare answered 200 with a body that decodes to an
    answer reporting success and listing a variant, and then the URL it
    returns is the first variant; whenever it returns an error, the URL is
    empty. *)
Theorem UploadImage_url_is_first_variant (e : CloudFlare.Env)
    (image : CloudFlare.FileHeader) (url : string) :
  (CloudFlare.UploadImage e image = Ret (url, None) <->
   exists r rest,
     CloudFlare.answered e image r /\
     CloudFlare.Success r = true /\
     CloudFlare.Variants (CloudFlare.Result r) = url :: rest) /\
  (forall err, CloudFlare.UploadImage e image = Ret (url, Some err) ->
               url = EmptyString).
Proof.
  split; [split|].
  - unfold CloudFlare.UploadImage, CloudFlare.answered.
    destruct (CloudFlare.Open e image) as [file|] eqn:O; [|discriminate].
    destruct (CloudFlare.CreateFormFile e _ _) eqn:F; [discriminate|].
    destruct (CloudFlare.Copy e file) eqn:C; [discriminate|].
    destruct (CloudFlare.Close e) eqn:W; [discriminate|].
    destruct (CloudFlare.NewRequest e _ _ _) as [req|] eqn:N; [|discriminate].
    destruct (CloudFlare.Do e _) as [resp|] eqn:D; [|discriminate].
    destruct (CloudFlare.Body resp) as [respBody|] eqn:B; [|discriminate].
    destruct (CloudFlare.StatusCode resp =? StatusOK) eqn:S; [|discriminate].
    cbn [negb].
    destruct (CloudFlare.Unmarshal e respBody) as [r|] eqn:U; [|discriminate].
    destruct (CloudFlare.Success r) eqn:Q; [|discriminate]. cbn [negb].
    destruct (CloudFlare.Variants (CloudFlare.Result r)) as [|v rest] eqn:V;
      [discriminate|].
    cbn. intros E. injection E as ->.
    exists r, rest. split; [|split; [exact Q|exact V]].
    exists file, req, resp, respBody. apply Z.eqb_eq in S.
    repeat split; assumption.
  - intros (r & rest & A & Q & V).
    rewrite (UploadImage_answered e image r A), Q, V. reflexivity.
  - intros err. unfold CloudFlare.UploadImage.
    repeat match goal with
           | |- context [match ?x with _ => _ end] =>
             match x with
             | context [match _ with _ => _ end] => fail 1
             | _ => destruct x
             end
           | |- context [if ?x then _ else _] => destruct x
           end;
      intros E; try discriminate E; injection E as <- _; reflexivity.
Qed.

Lemma UploadImage_url_is_first_variant_witness :
  (exists r rest,
     CloudFlare.answered SampleUpload.env Sample.picture r /\
     CloudFlare.Success r = true /\
     CloudFlare.Variants (CloudFlare.Result r) =
       "https://imagedelivery.net/a/img-1/public" :: rest) /\
  CloudFlare.UploadImage SampleUpload.env Sample.picture =
    Ret ("https://imagedelivery.net/a/img-1/public", None).
Proof.
  assert (A : exists r rest,
            CloudFlare.answered SampleUpload.env Sample.picture r /\
            CloudFlare.Success r = true /\
            CloudFlare.Variants (CloudFlare.Result r) =
              "https://imagedelivery.net/a/img-1/public" :: rest).
  { exists SampleUpload.two_variants, ["https://imagedelivery.net/a/img-1/thumb"].
    split; [|split; reflexivity]. do 4 eexists. repeat split; reflexivity. }
  split; [exact A|].
  apply (proj1 (UploadImage_url_is_first_variant SampleUpload.env Sample.picture
                  "https://imagedelivery.net/a/img-1/public")).
  exact A.
Defined.

(** X8: a response whose status is not 200 is never decoded: the result is
    [ErrUploadFailed], or [ErrReadResponse] when the body cannot even be
    read, whatever the body holds and whatever the decoder would make of
    it. *)
Theorem UploadImage_non_200_is_not_decoded (e : CloudFlare.Env)
    (image : CloudFlare.FileHeader) (resp : CloudFlare.HttpResponse)
    (decode : string -> goret CloudFlare.CloudflareResponse) :
  upload_sent e image resp ->
  CloudFlare.StatusCode resp <> 200 ->
  CloudFlare.UploadImage (with_Unmarshal e decode) image =
    Ret (EmptyString,
         Some (match CloudFlare.Body resp with
               | Fail _ => CloudFlare.ErrReadResponse
               | Val _ => CloudFlare.ErrUploadFailed
               end)).
Proof.
  intros S N.
  assert (S' : upload_sent (with_Unmarshal e decode) image resp) by exact S.
  rewrite (UploadImage_sent _ image resp S').
  destruct (CloudFlare.Body resp); [|reflexivity].
  apply Z.eqb_neq in N. unfold StatusOK. rewrite N. reflexivity.
Qed.

Lemma UploadImage_non_200_is_not_decoded_witness :
  upload_sent SampleUpload.env_bad_gateway Sample.picture SampleUpload.bad_gateway /\
  CloudFlare.StatusCode SampleUpload.bad_gateway <> 200 /\
  CloudFlare.UploadImage
    (with_Unmarshal SampleUpload.env_bad_gateway
       (fun _ => Val SampleUpload.two_variants)) Sample.picture =
    Ret (EmptyString, Some CloudFlare.ErrUploadFailed).
Proof.
  assert (S : upload_sent SampleUpload.env_bad_gateway Sample.picture
                SampleUpload.bad_gateway).
  { do 2 eexists. repeat split; reflexivity. }
  split; [exact S|]. split; [discriminate|].
  apply (UploadImage_non_200_is_not_decoded SampleUpload.env_bad_gateway
           Sample.picture SampleUpload.bad_gateway
           (fun _ => Val SampleUpload.two_variants) S).
  discriminate.
Defined.

(** X9: the only request [UploadImage] hands to the HTTP client carries
    the configured key as "Bearer <key>" under Authorization and the form's
    content type under Content-Type: a client that behaves differently on
    every other request gives the same result. *)
Theorem UploadImage_sends_credentials (e : CloudFlare.Env)
    (image : CloudFlare.FileHeader)
    (client : CloudFlare.HttpRequest -> goret CloudFlare.HttpResponse) :
  (forall r, carries_credentials e r -> client r = CloudFlare.Do e r) ->
  CloudFlare.UploadImage (with_Do e client) image = CloudFlare.UploadImage e image.
Proof.
  intros H. unfold CloudFlare.UploadImage.
  cbn [with_Do CloudFlare.Open CloudFlare.CreateFormFile CloudFlare.Copy
       CloudFlare.Close CloudFlare.FormBytes CloudFlare.NewRequest
       CloudFlare.CloudFlareAccountAPI CloudFlare.CloudFlareApiKey
       CloudFlare.FormDataContentType CloudFlare.Do CloudFlare.Unmarshal].
  destruct (CloudFlare.Open e image) as [file|]; [|reflexivity].
  destruct (CloudFlare.CreateFormFile e _ _); [reflexivity|].
  destruct (CloudFlare.Copy e file); [reflexivity|].
  destruct (CloudFlare.Close e); [reflexivity|].
  destruct (CloudFlare.NewRequest e _ _ _) as [req|]; [|reflexivity].
  rewrite H; [reflexivity|].
  unfold carries_credentials, CloudFlare.Header_Set. cbn [CloudFlare.req_Header].
  split.
  - rewrite lookup_insert_ne by discriminate. apply lookup_insert_eq.
  - apply lookup_insert_eq.
Qed.

Lemma UploadImage_sends_credentials_witness :
  (forall r, carries_credentials SampleUpload.env r ->
             SampleUpload.strict_client r = CloudFlare.Do SampleUpload.env r) /\
  CloudFlare.UploadImage (with_Do SampleUpload.env SampleUpload.strict_client)
    Sample.picture =
  CloudFlare.UploadImage SampleUpload.env Sample.picture.
Proof.
  assert (H : forall r, carries_credentials SampleUpload.env r ->
                SampleUpload.strict_client r = CloudFlare.Do SampleUpload.env r).
  { intros r [A _]. unfold SampleUpload.strict_client. rewrite A. reflexivity. }
  split; [exact H|].
  apply (UploadImage_sends_credentials SampleUpload.env Sample.picture
           SampleUpload.strict_client H).
Defined.

(* ===================================================================== *)
(** ** Store names *)
(* ===================================================================== *)

Section Trimming.

Import StoreDomain.

Lemma TrimLeft_blank (s : runes) : forallb IsSpace s = true -> TrimLeft s = [].
Proof.
  induction s as [|r s IH]; [reflexivity|].
  cbn. intros H. apply andb_prop in H as [Hr Hs]. rewrite Hr. auto.
Qed.

Lemma TrimLeft_nil_blank (s : runes) : TrimLeft s = [] -> forallb IsSpace s = true.
Proof.
  induction s as [|r s IH]; [reflexivity|].
  cbn. destruct (IsSpace r); [auto|discriminate].
Qed.

(** What [TrimLeft] keeps starts with a rune that is not white space. *)
Lemma TrimLeft_head (s : runes) (r : Z) (t : runes) :
  TrimLeft s = r :: t -> IsSpace r = false.
Proof.
  induction s as [|x s IH]; [discriminate|].
  cbn. destruct (IsSpace x) eqn:X; [auto|].
  intros E. injection E as <- _. exact X.
Qed.

Lemma TrimLeft_fixed (r : Z) (t : runes) :
  IsSpace r = false -> TrimLeft (r :: t) = r :: t.
Proof. intros H. cbn. rewrite H. reflexivity. Qed.

Lemma TrimLeft_idem (s : runes) : TrimLeft (TrimLeft s) = TrimLeft s.
Proof.
  destruct (TrimLeft s) as [|r t] eqn:E; [reflexivity|].
  apply TrimLeft_fixed, (TrimLeft_head s r t E).
Qed.

Lemma TrimLeft_app (a b : runes) :
  TrimLeft (a ++ b) =
    match TrimLeft a with
    | [] => TrimLeft b
    | t => t ++ b
    end.
Proof.
  induction a as [|r a IH]; [reflexivity|].
  cbn. destruct (IsSpace r); [exact IH|reflexivity].
Qed.

Lemma forallb_rev (f : Z -> bool) (s : runes) :
  forallb f (rev s) = forallb f s.
Proof.
  induction s as [|r s IH]; [reflexivity|].
  cbn. rewrite forallb_app, IH. cbn. rewrite andb_true_r. apply andb_comm.
Qed.

Lemma TrimRight_blank (s : runes) : forallb IsSpace s = true -> TrimRight s = [].
Proof.
  intros H. unfold TrimRight. rewrite TrimLeft_blank; [reflexivity|].
  rewrite forallb_rev. exact H.
Qed.

(** What [TrimRight] keeps of a string that starts with a rune that is not
    white space still starts with it. *)
Lemma TrimRight_keeps_head (r : Z) (t : runes) :
  IsSpace r = false -> exists u, TrimRight (r :: t) = r :: u.
Proof.
  intros H. unfold TrimRight. cbn [rev]. rewrite TrimLeft_app.
  destruct (TrimLeft (rev t)) as [|x k].
  - cbn. rewrite H. exists []. reflexivity.
  - exists (rev (x :: k)). rewrite rev_app_distr. reflexivity.
Qed.

Lemma TrimRight_idem (s : runes) : TrimRight (TrimRight s) = TrimRight s.
Proof.
  unfold TrimRight. rewrite rev_involutive, TrimLeft_idem. reflexivity.
Qed.

(** [TrimSpace] changes nothing in what it returns. *)
Lemma TrimSpace_idem (s : runes) : TrimSpace (TrimSpace s) = TrimSpace s.
Proof.
  unfold TrimSpace.
  destruct (TrimLeft s) as [|r t] eqn:E; [reflexivity|].
  destruct (TrimRight_keeps_head r t (TrimLeft_head s r t E)) as [u U].
  rewrite U, (TrimLeft_fixed r u (TrimLeft_head s r t E)), <- U.
  apply TrimRight_idem.
Qed.

Lemma TrimSpace_blank (s : runes) : forallb IsSpace s = true -> TrimSpace s = [].
Proof.
  intros H. unfold TrimSpace. rewrite (TrimLeft_blank s H). reflexivity.
Qed.

Lemma TrimSpace_nil_blank (s : runes) : TrimSpace s = [] -> forallb IsSpace s = true.
Proof.
  unfold TrimSpace. intros H.
  destruct (TrimLeft s) as [|r t] eqn:E; [exact (TrimLeft_nil_blank s E)|].
  destruct (TrimRight_keeps_head r t (TrimLeft_head s r t E)) as [u U].
  rewrite U in H. discriminate H.
Qed.

(** White space around a string does not change what [TrimSpace] returns. *)
Lemma TrimSpace_padding (pre s post : runes) :
  forallb IsSpace pre = true -> forallb IsSpace post = true ->
  TrimSpace (pre ++ s ++ post) = TrimSpace s.
Proof.
  intros Hpre Hpost. unfold TrimSpace.
  rewrite TrimLeft_app, (TrimLeft_blank pre Hpre), TrimLeft_app.
  destruct (TrimLeft s) as [|r t] eqn:E.
  - rewrite (TrimLeft_blank post Hpost). reflexivity.
  - unfold TrimRight. rewrite rev_app_distr, TrimLeft_app.
    rewrite TrimLeft_blank; [reflexivity|].
    rewrite forallb_rev. exact Hpost.
Qed.

(** What [TrimSpace] returns starts and ends with runes that are not white
    space. *)
Lemma TrimSpace_head (s : runes) (r : Z) :
  head (TrimSpace s) = Some r -> IsSpace r = false.
Proof.
  unfold TrimSpace. intros H.
  destruct (TrimLeft s) as [|x t] eqn:E; [discriminate H|].
  destruct (TrimRight_keeps_head x t (TrimLeft_head s x t E)) as [u U].
  rewrite U in H. cbn in H. injection H as <-. exact (TrimLeft_head s x t E).
Qed.

Lemma TrimSpace_last (s : runes) (r : Z) :
  last (TrimSpace s) = Some r -> IsSpace r = false.
Proof.
  unfold TrimSpace, TrimRight. intros H.
  destruct (TrimLeft (rev (TrimLeft s))) as [|x t] eqn:E; [discriminate H|].
  cbn [rev] in H. rewrite last_snoc in H. injection H as <-.
  exact (TrimLeft_head _ x t E).
Qed.

(** [TrimSpace] never lengthens. *)
Lemma TrimLeft_length (s : runes) : (length (TrimLeft s) <= length s)%nat.
Proof.
  induction s as [|r s IH]; [reflexivity|].
  cbn. destruct (IsSpace r); cbn; lia.
Qed.

Lemma TrimSpace_length (s : runes) : (length (TrimSpace s) <= length s)%nat.
Proof.
  unfold TrimSpace, TrimRight. rewrite length_rev.
  etransitivity; [apply TrimLeft_length|]. rewrite length_rev.
  apply TrimLeft_length.
Qed.

End Trimming.

(* ===================================================================== *)
(** ** Validating a store payload *)
(* ===================================================================== *)

(** [Validate] returns nil exactly when 1 to 100 runes are left after
    trimming. *)
Lemma Validate_accepts_iff (s : StoreDomain.StorePayload) :
  (StoreDomain.Validate s).2 = None <->
  (1 <= length (StoreDomain.TrimSpace (StoreDomain.Name s)) <= 100)%nat.
Proof.
  unfold StoreDomain.Validate, StoreDomain.validate_Struct, StoreDomain.trim.
  cbn [snd StoreDomain.Name].
  set (n := length (StoreDomain.TrimSpace (StoreDomain.Name s))).
  destruct (Nat.eqb_spec n 0), (Nat.ltb_spec n 1), (Nat.ltb_spec 100 n);
    split; intros; try discriminate; try lia; reflexivity.
Qed.

(** X10: [Validate] judges the name by what is left after trimming:
    "required" exactly when the name is empty or all white space, "max"
    exactly when more than 100 runes are left, nil exactly when between 1
    and 100 runes are left; "min" is never reported. *)
Theorem Validate_verdict (s : StoreDomain.StorePayload) :
  ((StoreDomain.Validate s).2 =
     Some {| StoreDomain.Field := "Name"; StoreDomain.Tag := "required" |} <->
   forallb StoreDomain.IsSpace (StoreDomain.Name s) = true) /\
  ((StoreDomain.Validate s).2 =
     Some {| StoreDomain.Field := "Name"; StoreDomain.Tag := "max" |} <->
   (100 < length (StoreDomain.TrimSpace (StoreDomain.Name s)))%nat) /\
  ((StoreDomain.Validate s).2 = None <->
   (1 <= length (StoreDomain.TrimSpace (StoreDomain.Name s)) <= 100)%nat) /\
  (StoreDomain.Validate s).2 <>
    Some {| StoreDomain.Field := "Name"; StoreDomain.Tag := "min" |}.
Proof.
  unfold StoreDomain.Validate, StoreDomain.validate_Struct, StoreDomain.trim.
  cbn [snd StoreDomain.Name].
  assert (B : forallb StoreDomain.IsSpace (StoreDomain.Name s) = true <->
              length (StoreDomain.TrimSpace (StoreDomain.Name s)) = 0%nat).
  { split.
    - intros A. rewrite (TrimSpace_blank _ A). reflexivity.
    - intros A. apply TrimSpace_nil_blank, length_zero_iff_nil, A. }
  revert B. set (n := length (StoreDomain.TrimSpace (StoreDomain.Name s))).
  intros B.
  destruct (Nat.eqb_spec n 0), (Nat.ltb_spec n 1), (Nat.ltb_spec 100 n);
    (split; [|split; [|split]]); try split; intros;
    try discriminate; try lia; try reflexivity; try tauto.
Qed.

(** X11: a payload [Validate] accepts, and the store [ToStore] builds from
    it, carry the trimmed name: 1 to 100 runes, neither starting nor
    ending with white space, unchanged by further trimming. The store
    belongs to the given user and is not marked deleted. *)
Theorem validated_store_name (s : StoreDomain.StorePayload)
    (newID userID : UUID) (now : StoreDomain.Time) :
  (StoreDomain.Validate s).2 = None ->
  let st := StoreDomain.ToStore newID now (StoreDomain.Validate s).1 userID in
  StoreDomain.StoreName st = StoreDomain.TrimSpace (StoreDomain.Name s) /\
  (1 <= length (StoreDomain.StoreName st) <= 100)%nat /\
  (forall r, head (StoreDomain.StoreName st) = Some r -> StoreDomain.IsSpace r = false) /\
  (forall r, last (StoreDomain.StoreName st) = Some r -> StoreDomain.IsSpace r = false) /\
  StoreDomain.TrimSpace (StoreDomain.StoreName st) = StoreDomain.StoreName st /\
  StoreDomain.UserID st = userID /\
  StoreDomain.DeletedAt st = None.
Proof.
  intros V. apply Validate_accepts_iff in V.
  cbn. repeat split; try lia.
  - apply TrimSpace_head.
  - apply TrimSpace_last.
  - apply TrimSpace_idem.
Qed.

Lemma validated_store_name_witness :
  (StoreDomain.Validate SampleStore.padded).2 = None /\
  StoreDomain.StoreName
    (StoreDomain.ToStore 7 1714557600 (StoreDomain.Validate SampleStore.padded).1 42) =
    StoreDomain.TrimSpace (StoreDomain.Name SampleStore.padded).
Proof.
  split; [reflexivity|].
  apply (validated_store_name SampleStore.padded 7 42 1714557600).
  reflexivity.
Defined.

(** X12: white space typed around a name does not count: [Validate] leaves
    the same payload and gives the same verdict as for the bare name, so a
    name of 100 runes passes however much white space surrounds it. *)
Theorem Validate_ignores_padding (pre name post : StoreDomain.runes) :
  forallb StoreDomain.IsSpace pre = true ->
  forallb StoreDomain.IsSpace post = true ->
  StoreDomain.Validate {| StoreDomain.Name := pre ++ name ++ post |} =
  StoreDomain.Validate {| StoreDomain.Name := name |}.
Proof.
  intros Hpre Hpost.
  unfold StoreDomain.Validate, StoreDomain.trim. cbn [StoreDomain.Name].
  rewrite (TrimSpace_padding pre name post Hpre Hpost). reflexivity.
Qed.

Lemma Validate_ignores_padding_witness :
  forallb StoreDomain.IsSpace [32; 32] = true /\
  forallb StoreDomain.IsSpace [9; 32] = true /\
  StoreDomain.Validate SampleStore.padded = StoreDomain.Validate SampleStore.plain.
Proof.
  split; [reflexivity|]. split; [reflexivity|].
  apply (Validate_ignores_padding [32; 32] (StoreDomain.of_ascii "Corner Shop") [9; 32]);
    reflexivity.
Defined.

(** X13: validating twice is validating once: the payload [Validate]
    leaves is unchanged by a second call, which gives the same verdict. *)
Theorem Validate_idempotent (s : StoreDomain.StorePayload) :
  StoreDomain.Validate (StoreDomain.Validate s).1 = StoreDomain.Validate s.
Proof.
  unfold StoreDomain.Validate, StoreDomain.trim. cbn [fst StoreDomain.Name].
  rewrite TrimSpace_idem. reflexivity.
Qed.

(* ===================================================================== *)
(** ** The store handler *)
(* ===================================================================== *)

Section HandlerFacts.

Variable StoreNameUpdatePayload : Type.
Variable e : StoreHandler.Env StoreNameUpdatePayload.
Variable req : StoreHandler.HRequest.

(** X14: the [Create] handler hands the store service nothing but a
    validated payload: the bound one with its name trimmed, of 1 to 100
    runes. It answers 201 only with the response of a service call that
    succeeded, and it never consults the status check. *)
Theorem Create_passes_validated_payload :
  (forall p, In (StoreHandler.CallCreate p) (StoreHandler.Create e req) ->
     exists raw,
       StoreHandler.Bind e req = Val raw /\
       StoreDomain.Name p = StoreDomain.TrimSpace (StoreDomain.Name raw) /\
       (1 <= length (StoreDomain.Name p) <= 100)%nat) /\
  (forall body,
     In (StoreHandler.WriteJSON StoreHandler.StatusCreated body)
        (StoreHandler.Create e req) ->
     exists p response,
       In (StoreHandler.CallCreate p) (StoreHandler.Create e req) /\
       StoreHandler.storeService_Create e (StoreHandler.RequestCtx req) p =
         Val response /\
       body = StoreHandler.OneStore response) /\
  ~ In StoreHandler.CallCheckStatus (StoreHandler.Create e req).
Proof.
  unfold StoreHandler.Create.
  destruct (StoreHandler.Bind e req) as [raw|] eqn:B.
  2:{ cbn. repeat split; intros; intuition discriminate. }
  pose proof (Validate_accepts_iff raw) as A.
  destruct (StoreDomain.Validate raw) as [p invalid] eqn:V.
  assert (N : StoreDomain.Name p = StoreDomain.TrimSpace (StoreDomain.Name raw)).
  { unfold StoreDomain.Validate in V. injection V as <- _. reflexivity. }
  cbn [snd] in A.
  destruct invalid.
  { cbn. repeat split; intros; intuition discriminate. }
  destruct (StoreHandler.storeService_Create e _ p) as [response|] eqn:S.
  - split; [|split].
    + intros q [Q|[Q|[]]]; [|discriminate Q]. injection Q as <-.
      exists raw. rewrite N. split; [reflexivity|]. split; [reflexivity|].
      apply A. reflexivity.
    + intros body [Q|[Q|[]]]; [discriminate Q|]. injection Q as <-.
      exists p, response. split; [left; reflexivity|]. split; [exact S|reflexivity].
    + intros [Q|[Q|[]]]; discriminate Q.
  - split; [|split].
    + intros q [Q|[Q|[]]]; [|discriminate Q]. injection Q as <-.
      exists raw. rewrite N. split; [reflexivity|]. split; [reflexivity|].
      apply A. reflexivity.
    + intros body [Q|[Q|[]]]; discriminate Q.
    + intros [Q|[Q|[]]]; discriminate Q.
Qed.

(** X15: [UpdateName] and [Delete] touch a store only after the status
    check has passed, and only the store whose identifier the [storeId]
    path parameter parses to. *)
Theorem mutation_follows_status_check :
  (forall storeID p,
     In (StoreHandler.CallUpdateName storeID p) (StoreHandler.UpdateName e req) ->
     StoreHandler.CheckStatus e (StoreHandler.RequestCtx req) = None /\
     StoreHandler.uuid_Parse e (StoreHandler.Param req "storeId") = Val storeID) /\
  (forall storeID,
     In (StoreHandler.CallDelete storeID) (StoreHandler.Delete e req) ->
     StoreHandler.CheckStatus e (StoreHandler.RequestCtx req) = None /\
     StoreHandler.uuid_Parse e (StoreHandler.Param req "storeId") = Val storeID) /\
  (forall c,
     In c (StoreHandler.UpdateName e req) \/ In c (StoreHandler.Delete e req) ->
     StoreHandler.mutates c = true ->
     StoreHandler.CheckStatus e (StoreHandler.RequestCtx req) = None).
Proof.
  unfold StoreHandler.UpdateName, StoreHandler.Delete, StoreHandler.status_failure.
  destruct (StoreHandler.uuid_Parse e _) as [storeID|] eqn:U.
  2:{ cbn. repeat split; intros; intuition (try discriminate; subst; discriminate). }
  destruct (StoreHandler.CheckStatus e _) as [err|] eqn:C.
  - destruct (StoreHandler.BindName e req) as [p0|];
      [destruct (StoreHandler.ValidateName e p0) as [p [?|]]|];
      destruct (errors_Is err ErrEmailNotConfirmed);
      cbn; repeat split; intros;
      intuition (try discriminate; subst; discriminate).
  - destruct (StoreHandler.BindName e req) as [p0|];
      [destruct (StoreHandler.ValidateName e p0) as [p [?|]]|];
      try destruct (StoreHandler.storeService_UpdateName e _ storeID p);
      destruct (StoreHandler.storeService_Delete e _ storeID);
      cbn; repeat split; intros; try reflexivity;
      intuition (try discriminate; try congruence).
Qed.

(** X16: when the status check fails, [UpdateName] and [Delete] answer
    403 if the error is [ErrEmailNotConfirmed] or wraps it, 500 for any
    other error, and leave the stores alone. *)
Theorem status_failure_answer (run : list (StoreHandler.Call StoreNameUpdatePayload))
    (err : error) :
  run = StoreHandler.UpdateName e req \/ run = StoreHandler.Delete e req ->
  In StoreHandler.CallCheckStatus run ->
  StoreHandler.CheckStatus e (StoreHandler.RequestCtx req) = Some err ->
  StoreHandler.statuses run =
    [if errors_Is err ErrEmailNotConfirmed then 403 else 500] /\
  forallb (fun c => negb (StoreHandler.mutates c)) run = true.
Proof.
  intros R I C.
  destruct R as [-> | ->]; revert I;
    unfold StoreHandler.UpdateName, StoreHandler.Delete, StoreHandler.status_failure;
    rewrite ?C.
  - destruct (StoreHandler.uuid_Parse e _) as [storeID|];
      [|cbn; intuition discriminate].
    destruct (StoreHandler.BindName e req) as [p0|];
      [|cbn; intuition discriminate].
    destruct (StoreHandler.ValidateName e p0) as [p [?|]];
      [cbn; intuition discriminate|].
    intros _. destruct (errors_Is err ErrEmailNotConfirmed); split; reflexivity.
  - destruct (StoreHandler.uuid_Parse e _) as [storeID|];
      [|cbn; intuition discriminate].
    intros _. destruct (errors_Is err ErrEmailNotConfirmed); split; reflexivity.
Qed.

(** X17: every run of the four handlers ends with its one response:
    exactly one status is written, by the last call. *)
Theorem handlers_answer_once (run : list (StoreHandler.Call StoreNameUpdatePayload)) :
  run = StoreHandler.Create e req \/ run = StoreHandler.GetAll e req \/
  run = StoreHandler.UpdateName e req \/ run = StoreHandler.Delete e req ->
  exists before answer code,
    run = before ++ [answer] /\
    StoreHandler.statuses before = [] /\
    StoreHandler.statuses [answer] = [code].
Proof.
  intros [-> | [-> | [-> | ->]]];
    unfold StoreHandler.Create, StoreHandler.GetAll, StoreHandler.UpdateName,
      StoreHandler.Delete, StoreHandler.status_failure.
  - destruct (StoreHandler.Bind e req) as [raw|];
      [|exists []; do 2 eexists; repeat split].
    destruct (StoreDomain.Validate raw) as [p [?|]];
      [exists []; do 2 eexists; repeat split|].
    destruct (StoreHandler.storeService_Create e _ p);
      (exists [StoreHandler.CallCreate p]; do 2 eexists; repeat split).
  - destruct (StoreHandler.storeService_GetAll e _) as [l|err];
      [exists [StoreHandler.CallGetAll]; do 2 eexists; repeat split|].
    destruct (errors_Is err _);
      [exists [StoreHandler.CallGetAll]; do 2 eexists; repeat split|].
    destruct (errors_Is err _);
      (exists [StoreHandler.CallGetAll]; do 2 eexists; repeat split).
  - destruct (StoreHandler.uuid_Parse e _) as [storeID|];
      [|exists []; do 2 eexists; repeat split].
    destruct (StoreHandler.BindName e req) as [p0|];
      [|exists []; do 2 eexists; repeat split].
    destruct (StoreHandler.ValidateName e p0) as [p [?|]];
      [exists []; do 2 eexists; repeat split|].
    destruct (StoreHandler.CheckStatus e _) as [err|].
    + destruct (errors_Is err _);
        (exists [StoreHandler.CallCheckStatus]; do 2 eexists; repeat split).
    + destruct (StoreHandler.storeService_UpdateName e _ storeID p);
        (exists [StoreHandler.CallCheckStatus; StoreHandler.CallUpdateName storeID p];
         do 2 eexists; repeat split).
  - destruct (StoreHandler.uuid_Parse e _) as [storeID|];
      [|exists []; do 2 eexists; repeat split].
    destruct (StoreHandler.CheckStatus e _) as [err|].
    + destruct (errors_Is err _);
        (exists [StoreHandler.CallCheckStatus]; do 2 eexists; repeat split).
    + destruct (StoreHandler.storeService_Delete e _ storeID);
        (exists [StoreHandler.CallCheckStatus; StoreHandler.CallDelete storeID];
         do 2 eexists; repeat split).
Qed.


End HandlerFacts.

(* ===================================================================== *)
(** ** The store handler on the sample deployment *)
(* ===================================================================== *)

Lemma Create_passes_validated_payload_witness :
  In (StoreHandler.CallCreate
        {| StoreDomain.Name := StoreDomain.of_ascii "Corner Shop" |})
     (StoreHandler.Create SampleHandler.env (SampleHandler.post "  Corner Shop ")) /\
  exists raw,
    StoreHandler.Bind SampleHandler.env (SampleHandler.post "  Corner Shop ") = Val raw /\
    StoreDomain.of_ascii "Corner Shop" = StoreDomain.TrimSpace (StoreDomain.Name raw) /\
    (1 <= length (StoreDomain.of_ascii "Corner Shop") <= 100)%nat.
Proof.
  assert (I : In (StoreHandler.CallCreate
                    {| StoreDomain.Name := StoreDomain.of_ascii "Corner Shop" |})
                 (StoreHandler.Create SampleHandler.env
                    (SampleHandler.post "  Corner Shop "))).
  { left. reflexivity. }
  split; [exact I|].
  exact (proj1 (Create_passes_validated_payload string SampleHandler.env
                  (SampleHandler.post "  Corner Shop ")) _ I).
Defined.

Lemma mutation_follows_status_check_witness :
  In (StoreHandler.CallDelete 7)
     (StoreHandler.Delete SampleHandler.env_confirmed
        (SampleHandler.on_store "store-7" EmptyString)) /\
  StoreHandler.CheckStatus SampleHandler.env_confirmed
    (StoreHandler.RequestCtx (SampleHandler.on_store "store-7" EmptyString)) = None.
Proof.
  assert (I : In (StoreHandler.CallDelete 7)
                 (StoreHandler.Delete SampleHandler.env_confirmed
                    (SampleHandler.on_store "store-7" EmptyString))).
  { right. left. reflexivity. }
  split; [exact I|].
  exact (proj1 (proj1 (proj2 (mutation_follows_status_check string
                                SampleHandler.env_confirmed
                                (SampleHandler.on_store "store-7" EmptyString)))
                  7 I)).
Defined.

Lemma status_failure_answer_witness :
  In StoreHandler.CallCheckStatus
     (StoreHandler.Delete SampleHandler.env (SampleHandler.on_store "store-7" EmptyString)) /\
  StoreHandler.CheckStatus SampleHandler.env
    (StoreHandler.RequestCtx (SampleHandler.on_store "store-7" EmptyString)) =
    Some (ErrWrap "check status" ErrEmailNotConfirmed) /\
  StoreHandler.statuses
    (StoreHandler.Delete SampleHandler.env (SampleHandler.on_store "store-7" EmptyString)) =
    [403].
Proof.
  split; [left; reflexivity|]. split; [reflexivity|].
  apply (status_failure_answer string SampleHandler.env
           (SampleHandler.on_store "store-7" EmptyString)
           (StoreHandler.Delete SampleHandler.env
              (SampleHandler.on_store "store-7" EmptyString))
           (ErrWrap "check status" ErrEmailNotConfirmed)).
  - right. reflexivity.
  - left. reflexivity.
  - reflexivity.
Defined.

Lemma handlers_answer_once_witness :
  exists before answer code,
    StoreHandler.UpdateName SampleHandler.env_confirmed
      (SampleHandler.on_store "store-7" "Corner Shop") = before ++ [answer] /\
    StoreHandler.statuses before = [] /\
    StoreHandler.statuses [answer] = [code].
Proof.
  apply (handlers_answer_once string SampleHandler.env_confirmed
           (SampleHandler.on_store "store-7" "Corner Shop")).
  right. right. left. reflexivity.
Defined.


Example UpdateName_unknown_store_id :
  StoreHandler.UpdateName SampleHandler.env_confirmed
    (SampleHandler.on_store "not-a-uuid" "Corner Shop") =
    [StoreHandler.invalid_request_400].
Proof. reflexivity. Qed.

Example Create_blank_name :
  StoreHandler.statuses
    (StoreHandler.Create SampleHandler.env (SampleHandler.post "   ")) = [400].
Proof. reflexivity. Qed.

(* ===================================================================== *)
(** ** More of the gates on the sample deployment *)
(* ===================================================================== *)

Lemma admission_requires_every_check_witness :
  admits (Sample.bearer "tok-alice") Sample.handler
    (Sample.password_gate Sample.users_unconfirmed "tok-alice") Sample.alice /\
  exists tokenString publicKey token,
    accepted Sample.world (Sample.bearer "tok-alice") tokenString publicKey token /\
    GetUser Sample.sessions (Ctx (Sample.bearer "tok-alice")) tokenString =
      Val Sample.alice.
Proof.
  assert (A : admits (Sample.bearer "tok-alice") Sample.handler
                (Sample.password_gate Sample.users_unconfirmed "tok-alice")
                Sample.alice).
  { unfold admits. repeat split; try reflexivity.
    exists (up_to_lookup Sample.world "tok-alice" (Sample.es256 "tok-alice")).
    reflexivity. }
  split; [exact A|].
  exact (proj1 (admission_requires_every_check Sample.world Sample.sessions
                  Sample.users_unconfirmed Sample.handler
                  (Sample.bearer "tok-alice") Sample.alice) A).
Defined.

Lemma lookups_follow_verification_witness :
  In (EvGetUser "tok-gone")
     (st_log (Sample.logged_in Sample.users_confirmed "tok-gone").2) /\
  exists publicKey token,
    accepted Sample.world (Sample.bearer "tok-gone") "tok-gone" publicKey token.
Proof.
  assert (I : In (EvGetUser "tok-gone")
                 (st_log (Sample.logged_in Sample.users_confirmed "tok-gone").2)).
  { vm_compute. do 6 right. left. reflexivity. }
  split; [exact I|].
  exact (proj1 (lookups_follow_verification Sample.world Sample.sessions
                  Sample.users_confirmed Sample.handler (Sample.bearer "tok-gone"))
           "tok-gone" (or_introl I)).
Defined.

Lemma extraction_failure_is_invalid_session_witness :
  Header_Get (Header (Sample.bearer "Basic dXNlcg==")) "Authorization" <> EmptyString /\
  ExtractToken SampleGates.world_no_bearer (Sample.bearer "Basic dXNlcg==") =
    Fail (ErrOther "invalid authorization header") /\
  rejects (Sample.bearer "Basic dXNlcg==")
    (serve (CheckLoggedIn SampleGates.world_no_bearer
              (injector Sample.sessions Sample.users_confirmed) Sample.handler)
       (Sample.bearer "Basic dXNlcg=="))
    401 "Invalid Session".
Proof.
  split; [vm_compute; intros; discriminate|]. split; [reflexivity|].
  apply (extraction_failure_is_invalid_session SampleGates.world_no_bearer
           Sample.sessions Sample.users_confirmed Sample.handler
           (Sample.bearer "Basic dXNlcg==")
           (ErrOther "invalid authorization header")).
  - vm_compute; intros; discriminate.
  - reflexivity.
Defined.

Lemma failed_verification_is_rejected_witness :
  Header_Get (Header (Sample.bearer "tok-alice")) "Authorization" <> EmptyString /\
  ExtractToken SampleGates.world_expired (Sample.bearer "tok-alice") = Val "tok-alice" /\
  LoadPublicKey SampleGates.world_expired (SecretKeyPath SampleGates.world_expired) =
    Val Sample.key /\
  ParseUnverified SampleGates.world_expired "tok-alice" = Val (Sample.es256 "tok-alice") /\
  is_ECDSA (Method (Sample.es256 "tok-alice")) = true /\
  ~ claims_clean SampleGates.world_expired (Sample.es256 "tok-alice") /\
  rejects (Sample.bearer "tok-alice")
    (serve (CheckLoggedIn SampleGates.world_expired
              (injector Sample.sessions Sample.users_confirmed) Sample.handler)
       (Sample.bearer "tok-alice"))
    401 "Invalid Session".
Proof.
  assert (N : ~ claims_clean SampleGates.world_expired (Sample.es256 "tok-alice")).
  { unfold claims_clean. cbn. discriminate. }
  split; [vm_compute; intros; discriminate|].
  do 4 (split; [reflexivity|]). split; [exact N|].
  apply (failed_verification_is_rejected SampleGates.world_expired
           Sample.sessions Sample.users_confirmed Sample.handler
           (Sample.bearer "tok-alice") "tok-alice" Sample.key
           (Sample.es256 "tok-alice")).
  - vm_compute; intros; discriminate.
  - reflexivity.
  - reflexivity.
  - reflexivity.
  - reflexivity.
  - left. exact N.
Defined.

Lemma handler_request_extends_context_witness :
  In (admitted_request (Sample.bearer "tok-alice") Sample.alice)
     (handler_calls
        (st_log (Sample.logged_in Sample.users_confirmed "tok-alice").2)) /\
  Header (admitted_request (Sample.bearer "tok-alice") Sample.alice) =
    Header (Sample.bearer "tok-alice").
Proof.
  assert (I : In (admitted_request (Sample.bearer "tok-alice") Sample.alice)
                 (handler_calls
                    (st_log (Sample.logged_in Sample.users_confirmed "tok-alice").2))).
  { left. reflexivity. }
  split; [exact I|].
  exact (proj1 (handler_request_extends_context Sample.world Sample.sessions
                  Sample.users_confirmed Sample.handler (Sample.bearer "tok-alice")
                  (admitted_request (Sample.bearer "tok-alice") Sample.alice)
                  (or_introl I))).
Defined.

Example forged_token_is_refused :
  responses
    (st_log (serve (ConfirmPassword SampleGates.world_forged
                      (injector Sample.sessions Sample.users_confirmed)
                      Sample.handler) (Sample.bearer "tok-alice")).2) =
    [(401, {| Status := 401; Title := "Invalid Session";
              Detail := "Your session is invalid. Please log in again." |})].
Proof. reflexivity. Qed.
